(** * ItMakesCoffee: the Keithley acquisition controller

    A shallow embedding of [src/hardware/keithley.py] (class [Keithley]):
    the controller object, its background acquisition thread as a small-step
    machine interleaved with the caller's method calls, the Qt signals it
    emits and the calls it makes on the source meter.

    Numbers are IEEE-754 binary64 values ([spec_float] with precision 53 and
    maximal exponent 1024), the representation behind Python floats and
    numpy's float64 arrays. *)

From Stdlib Require Import ZArith Lia.
From Corelib Require Import SpecFloat.
From stdpp Require Import base list strings pretty.

Set Default Proof Using "Type".

(** ** binary64 arithmetic *)

Module F64.

Definition prec : Z := 53.
Definition emax : Z := 1024.

Definition float : Type := spec_float.

Definition add : float -> float -> float := SFadd prec emax.
Definition sub : float -> float -> float := SFsub prec emax.
Definition mul : float -> float -> float := SFmul prec emax.
Definition div : float -> float -> float := SFdiv prec emax.
Definition neg : float -> float := SFopp.
Definition abs : float -> float := SFabs.
Definition eqb : float -> float -> bool := SFeqb.

(** Conversion of a Python int, and the dyadic [m * 2^e]. *)
Definition of_Z (z : Z) : float := binary_normalize prec emax z 0 false.
Definition dyadic (m e : Z) : float := binary_normalize prec emax m e false.

Definition zero : float := S754_zero false.
Definition nan : float := S754_nan.

Definition is_nan (x : float) : bool :=
  match x with S754_nan => true | _ => false end.
Definition is_inf (x : float) : bool :=
  match x with S754_infinity _ => true | _ => false end.
Definition is_zero (x : float) : bool :=
  match x with S754_zero _ => true | _ => false end.
(** A number: neither an infinity nor a NaN. *)
Definition is_finite (x : float) : bool :=
  match x with S754_zero _ | S754_finite _ _ _ => true | _ => false end.

End F64.

Abbreviation float := F64.float.

(** ** Exceptions and results *)

Inductive exn :=
| ValueError          (* np.linspace with a negative num *)
| IndexError          (* numpy index out of bounds *)
| AttributeError      (* method call on None *)
| InstrumentError.    (* any other failure of an instrument call *)

Inductive result (A : Type) :=
| Ok (a : A)
| Raise (e : exn).
Arguments Ok {A} a.
Arguments Raise {A} e.

(** ** numpy: [linspace], [zeros_like], item assignment *)

Module np.

(** The step of [np.linspace(start, stop, num)]. *)
Definition linspace_step (start stop : float) (num : Z) : float :=
  F64.div (F64.sub stop start) (F64.of_Z (num - 1)).

(** Sample [i] of [np.linspace(start, stop, num)] before the end point is
    put in place: [i * step + start]; a step that compares equal to zero
    takes the division first, [(i / (num - 1)) * (stop - start) + start];
    with fewer than two samples there is no step, [i * (stop - start) + start]. *)
Definition sample (start stop : float) (num : Z) (i : nat) : float :=
  let v := F64.of_Z (Z.of_nat i) in
  let dv := (num - 1)%Z in
  let delta := F64.sub stop start in
  let scaled :=
    if (0 <? dv)%Z then
      if F64.eqb (linspace_step start stop num) F64.zero
      then F64.mul (F64.div v (F64.of_Z dv)) delta
      else F64.mul v (linspace_step start stop num)
    else F64.mul v delta in
  F64.add scaled start.

(** [np.linspace(start, stop, num=num)] with the default [endpoint=True]:
    [num] samples, the last one overwritten by [stop] when [num > 1]; a
    negative [num] is a [ValueError]. *)
Definition linspace (start stop : float) (num : Z) : result (list float) :=
  if (num <? 0)%Z then Raise ValueError
  else
    let n := Z.to_nat num in
    let y := map (sample start stop num) (seq 0 n) in
    Ok (if (1 <? num)%Z then <[(n - 1)%nat := stop]> y else y).

(** [np.zeros_like(a)] for a one-dimensional float64 array. *)
Definition zeros_like (a : list float) : list float :=
  replicate (length a) F64.zero.

(** [a[i] = v]: in place within bounds, [IndexError] beyond. *)
Definition setitem (a : list float) (i : nat) (v : float) : result (list float) :=
  if (i <? length a)%nat then Ok (<[i := v]> a) else Raise IndexError.

(** [a[i]]. *)
Definition getitem (a : list float) (i : nat) : result float :=
  match a !! i with
  | Some v => Ok v
  | None => Raise IndexError
  end.

End np.

(** ** Signals, instrument calls, environment *)

(** The three [pyqtSignal]s of the class; an emission is recorded with its
    argument. *)
Inductive signal :=
| update (dp : nat)
| save (repetition : nat)
| to_log (msg : string).

Definition dquote : string := String (Ascii.ascii_of_nat 34) EmptyString.

(** The HTML span every log line is wrapped in. *)
Definition span (color text : string) : string :=
  "<span style=" +:+ dquote +:+ " color:" +:+ color +:+ ";" +:+ dquote +:+ " >"
  +:+ text +:+ "</span>".

Definition msg_trying (port : string) : string :=
  span "#000000" ("Trying to connect to: " +:+ port +:+ ".").
Definition msg_connected (port : string) : string :=
  span "#32cd32" ("Connected to " +:+ port +:+ ".").
Definition msg_failed (port : string) : string :=
  span "#ff0000" ("Failed to connect with " +:+ port +:+ ".").
Definition msg_finished_curve (repetition : nat) : string :=
  span "#1e90ff" ("Finished curve #" +:+ pretty (repetition + 1)).
Definition msg_finished_scan : string :=
  span "#32cd32" "Finished IV scan.".
Definition msg_disconnected : string :=
  span "#000000" "Disconnected Keithley...".

(** Calls made on a [Keithley2400] object, in the order they are made. *)
Inductive instr_call :=
| Reset
| UseFrontTerminals
| SetComplianceCurrent (c : float)
| MeasureCurrent
| ConfigBuffer (n : Z)
| EnableSource
| AdapterWrite (cmd : string)
| SetSourceVoltage (v : float)
| StartBuffer
| WaitForBuffer
| Shutdown.

(** What [Keithley2400(port)] does: hand back an instrument, raise
    [pyvisa.errors.VisaIOError], or raise something else. *)
Inductive open_outcome :=
| Connected
| OpenVisaIOError
| OpenOtherError.

(** What one buffered measurement yields: [time.time()] and the three
    statistics read off the instrument. *)
Record reading := {
  now : float;
  mean_voltage : float;
  mean_current : float;
  std_current : float
}.

(** The environment's part in one step of the background thread: the outcome
    of an open, and the reading of a measurement ([None]: an instrument call
    of the per-point body raised). A step uses the part it needs. *)
Record input := {
  env_open : open_outcome;
  env_meas : option reading
}.

(** Keyword arguments of [config_keithley]: the two it reads, and the rest,
    which [**kwargs] accepts and nothing looks at. *)
Record kwargs := {
  kw_compliance_current : option float;
  kw_averages : option Z;
  kw_others : list (string * float)
}.

Definition no_kwargs : kwargs :=
  {| kw_compliance_current := None; kw_averages := None; kw_others := [] |}.

(** ** The controller object *)

(** The attributes set by [__init__]. [gpib_thread] holds the identifier of
    the thread object, [sourcemeter] the resource name the instrument was
    opened on; [None] is Python's [None]. *)

Record Keithley := {
  gpib_port : string;
  n_data_points : Z;
  averages : Z;
  repetitions : Z;
  repetition_delay : float;
  delay : float;
  max_voltage : float;
  min_voltage : float;
  compliance_current : float;
  voltages_set : list float;
  times : list float;
  voltages : list float;
  currents : list float;
  currents_std : list float;
  resistances : list float;
  powers : list float;
  is_run : bool;
  is_receiving : bool;
  gpib_thread : option nat;
  sourcemeter : option string
}.


(** Attribute assignment, one function per attribute the methods assign. *)

Definition set_gpib_port (v : string) (k : Keithley) : Keithley :=
  {| gpib_port := v;
     n_data_points := n_data_points k;
     averages := averages k;
     repetitions := repetitions k;
     repetition_delay := repetition_delay k;
     delay := delay k;
     max_voltage := max_voltage k;
     min_voltage := min_voltage k;
     compliance_current := compliance_current k;
     voltages_set := voltages_set k;
     times := times k;
     voltages := voltages k;
     currents := currents k;
     currents_std := currents_std k;
     resistances := resistances k;
     powers := powers k;
     is_run := is_run k;
     is_receiving := is_receiving k;
     gpib_thread := gpib_thread k;
     sourcemeter := sourcemeter k |}.

Definition set_averages (v : Z) (k : Keithley) : Keithley :=
  {| gpib_port := gpib_port k;
     n_data_points := n_data_points k;
     averages := v;
     repetitions := repetitions k;
     repetition_delay := repetition_delay k;
     delay := delay k;
     max_voltage := max_voltage k;
     min_voltage := min_voltage k;
     compliance_current := compliance_current k;
     voltages_set := voltages_set k;
     times := times k;
     voltages := voltages k;
     currents := currents k;
     currents_std := currents_std k;
     resistances := resistances k;
     powers := powers k;
     is_run := is_run k;
     is_receiving := is_receiving k;
     gpib_thread := gpib_thread k;
     sourcemeter := sourcemeter k |}.

Definition set_times (v : list float) (k : Keithley) : Keithley :=
  {| gpib_port := gpib_port k;
     n_data_points := n_data_points k;
     averages := averages k;
     repetitions := repetitions k;
     repetition_delay := repetition_delay k;
     delay := delay k;
     max_voltage := max_voltage k;
     min_voltage := min_voltage k;
     compliance_current := compliance_current k;
     voltages_set := voltages_set k;
     times := v;
     voltages := voltages k;
     currents := currents k;
     currents_std := currents_std k;
     resistances := resistances k;
     powers := powers k;
     is_run := is_run k;
     is_receiving := is_receiving k;
     gpib_thread := gpib_thread k;
     sourcemeter := sourcemeter k |}.

Definition set_voltages (v : list float) (k : Keithley) : Keithley :=
  {| gpib_port := gpib_port k;
     n_data_points := n_data_points k;
     averages := averages k;
     repetitions := repetitions k;
     repetition_delay := repetition_delay k;
     delay := delay k;
     max_voltage := max_voltage k;
     min_voltage := min_voltage k;
     compliance_current := compliance_current k;
     voltages_set := voltages_set k;
     times := times k;
     voltages := v;
     currents := currents k;
     currents_std := currents_std k;
     resistances := resistances k;
     powers := powers k;
     is_run := is_run k;
     is_receiving := is_receiving k;
     gpib_thread := gpib_thread k;
     sourcemeter := sourcemeter k |}.

Definition set_currents (v : list float) (k : Keithley) : Keithley :=
  {| gpib_port := gpib_port k;
     n_data_points := n_data_points k;
     averages := averages k;
     repetitions := repetitions k;
     repetition_delay := repetition_delay k;
     delay := delay k;
     max_voltage := max_voltage k;
     min_voltage := min_voltage k;
     compliance_current := compliance_current k;
     voltages_set := voltages_set k;
     times := times k;
     voltages := voltages k;
     currents := v;
     currents_std := currents_std k;
     resistances := resistances k;
     powers := powers k;
     is_run := is_run k;
     is_receiving := is_receiving k;
     gpib_thread := gpib_thread k;
     sourcemeter := sourcemeter k |}.

Definition set_currents_std (v : list float) (k : Keithley) : Keithley :=
  {| gpib_port := gpib_port k;
     n_data_points := n_data_points k;
     averages := averages k;
     repetitions := repetitions k;
     repetition_delay := repetition_delay k;
     delay := delay k;
     max_voltage := max_voltage k;
     min_voltage := min_voltage k;
     compliance_current := compliance_current k;
     voltages_set := voltages_set k;
     times := times k;
     voltages := voltages k;
     currents := currents k;
     currents_std := v;
     resistances := resistances k;
     powers := powers k;
     is_run := is_run k;
     is_receiving := is_receiving k;
     gpib_thread := gpib_thread k;
     sourcemeter := sourcemeter k |}.

Definition set_resistances (v : list float) (k : Keithley) : Keithley :=
  {| gpib_port := gpib_port k;
     n_data_points := n_data_points k;
     averages := averages k;
     repetitions := repetitions k;
     repetition_delay := repetition_delay k;
     delay := delay k;
     max_voltage := max_voltage k;
     min_voltage := min_voltage k;
     compliance_current := compliance_current k;
     voltages_set := voltages_set k;
     times := times k;
     voltages := voltages k;
     currents := currents k;
     currents_std := currents_std k;
     resistances := v;
     powers := powers k;
     is_run := is_run k;
     is_receiving := is_receiving k;
     gpib_thread := gpib_thread k;
     sourcemeter := sourcemeter k |}.

Definition set_powers (v : list float) (k : Keithley) : Keithley :=
  {| gpib_port := gpib_port k;
     n_data_points := n_data_points k;
     averages := averages k;
     repetitions := repetitions k;
     repetition_delay := repetition_delay k;
     delay := delay k;
     max_voltage := max_voltage k;
     min_voltage := min_voltage k;
     compliance_current := compliance_current k;
     voltages_set := voltages_set k;
     times := times k;
     voltages := voltages k;
     currents := currents k;
     currents_std := currents_std k;
     resistances := resistances k;
     powers := v;
     is_run := is_run k;
     is_receiving := is_receiving k;
     gpib_thread := gpib_thread k;
     sourcemeter := sourcemeter k |}.

Definition set_is_run (v : bool) (k : Keithley) : Keithley :=
  {| gpib_port := gpib_port k;
     n_data_points := n_data_points k;
     averages := averages k;
     repetitions := repetitions k;
     repetition_delay := repetition_delay k;
     delay := delay k;
     max_voltage := max_voltage k;
     min_voltage := min_voltage k;
     compliance_current := compliance_current k;
     voltages_set := voltages_set k;
     times := times k;
     voltages := voltages k;
     currents := currents k;
     currents_std := currents_std k;
     resistances := resistances k;
     powers := powers k;
     is_run := v;
     is_receiving := is_receiving k;
     gpib_thread := gpib_thread k;
     sourcemeter := sourcemeter k |}.

Definition set_is_receiving (v : bool) (k : Keithley) : Keithley :=
  {| gpib_port := gpib_port k;
     n_data_points := n_data_points k;
     averages := averages k;
     repetitions := repetitions k;
     repetition_delay := repetition_delay k;
     delay := delay k;
     max_voltage := max_voltage k;
     min_voltage := min_voltage k;
     compliance_current := compliance_current k;
     voltages_set := voltages_set k;
     times := times k;
     voltages := voltages k;
     currents := currents k;
     currents_std := currents_std k;
     resistances := resistances k;
     powers := powers k;
     is_run := is_run k;
     is_receiving := v;
     gpib_thread := gpib_thread k;
     sourcemeter := sourcemeter k |}.

Definition set_gpib_thread (v : option nat) (k : Keithley) : Keithley :=
  {| gpib_port := gpib_port k;
     n_data_points := n_data_points k;
     averages := averages k;
     repetitions := repetitions k;
     repetition_delay := repetition_delay k;
     delay := delay k;
     max_voltage := max_voltage k;
     min_voltage := min_voltage k;
     compliance_current := compliance_current k;
     voltages_set := voltages_set k;
     times := times k;
     voltages := voltages k;
     currents := currents k;
     currents_std := currents_std k;
     resistances := resistances k;
     powers := powers k;
     is_run := is_run k;
     is_receiving := is_receiving k;
     gpib_thread := v;
     sourcemeter := sourcemeter k |}.

Definition set_sourcemeter (v : option string) (k : Keithley) : Keithley :=
  {| gpib_port := gpib_port k;
     n_data_points := n_data_points k;
     averages := averages k;
     repetitions := repetitions k;
     repetition_delay := repetition_delay k;
     delay := delay k;
     max_voltage := max_voltage k;
     min_voltage := min_voltage k;
     compliance_current := compliance_current k;
     voltages_set := voltages_set k;
     times := times k;
     voltages := voltages k;
     currents := currents k;
     currents_std := currents_std k;
     resistances := resistances k;
     powers := powers k;
     is_run := is_run k;
     is_receiving := is_receiving k;
     gpib_thread := gpib_thread k;
     sourcemeter := v |}.

(** [Keithley.__init__]: the arguments are stored, the voltage sequence is
    computed once and the six sample arrays are zeroed at its length. *)
Definition __init__ (gpib_port : string) (n_data_points averages repetitions : Z)
    (repetition_delay delay min_voltage max_voltage compliance_current : float)
    : result Keithley :=
  match np.linspace min_voltage max_voltage n_data_points with
  | Raise e => Raise e
  | Ok vs =>
      Ok {| gpib_port := gpib_port;
            n_data_points := n_data_points;
            averages := averages;
            repetitions := repetitions;
            repetition_delay := repetition_delay;
            delay := delay;
            max_voltage := max_voltage;
            min_voltage := min_voltage;
            compliance_current := compliance_current;
            voltages_set := vs;
            times := np.zeros_like vs;
            voltages := np.zeros_like vs;
            currents := np.zeros_like vs;
            currents_std := np.zeros_like vs;
            resistances := np.zeros_like vs;
            powers := np.zeros_like vs;
            is_run := true;
            is_receiving := false;
            gpib_thread := None;
            sourcemeter := None |}
  end.

(** The default arguments of the constructor. *)
Definition default_repetition_delay : float := F64.dyadic 2 0.
Definition default_delay : float := F64.dyadic 1 (-2).
Definition default_min_voltage : float := S754_finite true 5764607523034235 (-59).
Definition default_max_voltage : float := S754_finite false 6305039478318694 (-53).
Definition default_compliance_current : float := F64.dyadic 1 (-1).

Definition default_Keithley : result Keithley :=
  __init__ "GPIB::24" 100 5 1 default_repetition_delay default_delay
    default_min_voltage default_max_voltage default_compliance_current.

Definition is_dummy (k : Keithley) : bool := String.eqb (gpib_port k) "dummy".

(** ** The world: object, threads, caller, observable traces *)

(** Program points of [background_thread], by the line the thread is about
    to execute. *)
Inductive pc :=
| AtSleep                      (* line 83: time.sleep(1.0) *)
| AtConfig                     (* line 84: self.config_keithley() *)
| AtWhile                      (* line 85: while self.is_run *)
| AtRepetition (rep : nat)     (* lines 86-88: top of a repetition *)
| AtPoint (rep dp : nat)       (* lines 90-103: top of a per-point iteration; line 104 *)
| AtSave (rep : nat)           (* lines 105-110 *)
| AtClearRun.                  (* line 111: self.is_run = False *)

Inductive tstate :=
| Running (p : pc)
| Finished
| Died (e : exn).

Definition terminated (t : tstate) : bool :=
  match t with Running _ => false | _ => true end.

(** Where the thread that calls the methods is. *)
Inductive cstate :=
| Free        (* between calls *)
| InStart     (* in read_keithley_start, polling is_receiving *)
| InClose.    (* in close, at the join *)

Record World := {
  ctl : Keithley;
  threads : list tstate;          (* every thread created, by identifier *)
  caller : cstate;
  signals : list signal;          (* emissions, oldest first *)
  instrument : list instr_call;   (* calls on the source meter, oldest first *)
  raised : list exn               (* exceptions that reached the caller *)
}.

Definition boot (k : Keithley) : World :=
  {| ctl := k; threads := []; caller := Free; signals := [];
     instrument := []; raised := [] |}.

Definition upd (f : Keithley -> Keithley) (w : World) : World :=
  {| ctl := f (ctl w); threads := threads w; caller := caller w;
     signals := signals w; instrument := instrument w; raised := raised w |}.

Definition set_threads (ts : list tstate) (w : World) : World :=
  {| ctl := ctl w; threads := ts; caller := caller w;
     signals := signals w; instrument := instrument w; raised := raised w |}.

Definition set_caller (c : cstate) (w : World) : World :=
  {| ctl := ctl w; threads := threads w; caller := c;
     signals := signals w; instrument := instrument w; raised := raised w |}.

Definition emit_signal (s : signal) (w : World) : World :=
  {| ctl := ctl w; threads := threads w; caller := caller w;
     signals := signals w ++ [s]; instrument := instrument w; raised := raised w |}.

Definition call_instrument (c : instr_call) (w : World) : World :=
  {| ctl := ctl w; threads := threads w; caller := caller w;
     signals := signals w; instrument := instrument w ++ [c]; raised := raised w |}.

Definition reach_caller (e : exn) (w : World) : World :=
  {| ctl := ctl w; threads := threads w; caller := caller w;
     signals := signals w; instrument := instrument w; raised := raised w ++ [e] |}.

(** ** Method bodies: state and exceptions *)

(** A computation runs on the world and returns a value or raises; what it
    did before raising stays done. *)
Definition M (A : Type) : Type := World -> World * result A.

Definition ret {A} (a : A) : M A := fun w => (w, Ok a).
Definition throw {A} (e : exn) : M A := fun w => (w, Raise e).
Definition bind {A B} (m : M A) (f : A -> M B) : M B :=
  fun w => match m w with
           | (w', Ok a) => f a w'
           | (w', Raise e) => (w', Raise e)
           end.
Definition attr {A} (f : Keithley -> A) : M A := fun w => (w, Ok (f (ctl w))).
Definition assign (f : Keithley -> Keithley) : M unit := fun w => (upd f w, Ok tt).
Definition emit (s : signal) : M unit := fun w => (emit_signal s w, Ok tt).
Definition instr (c : instr_call) : M unit := fun w => (call_instrument c w, Ok tt).
Definition lift {A} (r : result A) : M A := fun w => (w, r).
(** [time.sleep]: nothing the model observes. *)
Definition sleep (d : float) : M unit := ret tt.

Declare Scope py_scope.
Delimit Scope py_scope with py.
Notation "x <- m ;; k" := (bind m (fun x => k))
  (at level 100, m at next level, right associativity) : py_scope.
Notation "m ;;; k" := (bind m (fun _ => k))
  (at level 100, right associativity) : py_scope.
Open Scope py_scope.

(** A method call on [self.sourcemeter]: [AttributeError] on [None]. *)
Definition on_sourcemeter (c : instr_call) : M unit :=
  sm <- attr sourcemeter ;;
  match sm with
  | None => throw AttributeError
  | Some _ => instr c
  end.

(** [Keithley.config_keithley] with its keyword arguments, lines 42-60. *)
Definition config_keithley (kw : kwargs) (o : open_outcome) : M unit :=
  port <- attr gpib_port ;;
  emit (to_log (msg_trying port)) ;;;
  if String.eqb port "dummy" then ret tt
  else
    match o with
    | OpenVisaIOError =>
        emit (to_log (msg_failed port)) ;;;
        assign (set_gpib_port "dummy")
    | OpenOtherError => throw InstrumentError
    | Connected =>
        assign (set_sourcemeter (Some port)) ;;;
        emit (to_log (msg_connected port)) ;;;
        on_sourcemeter Reset ;;;
        on_sourcemeter UseFrontTerminals ;;;
        cc <- attr compliance_current ;;
        on_sourcemeter (SetComplianceCurrent (default cc (kw_compliance_current kw))) ;;;
        on_sourcemeter MeasureCurrent ;;;
        sleep (F64.dyadic 1 (-3)) ;;;
        av <- attr averages ;;
        assign (set_averages (default av (kw_averages kw))) ;;;
        av' <- attr averages ;;
        on_sourcemeter (ConfigBuffer av') ;;;
        on_sourcemeter EnableSource
    end.

(** [self.a[dp] = v] for one of the sample arrays. *)
Definition store (get : Keithley -> list float) (set : list float -> Keithley -> Keithley)
    (dp : nat) (v : float) : M unit :=
  a <- attr get ;;
  a' <- lift (np.setitem a dp v) ;;
  assign (set a').

(** [self.a[dp]]. *)
Definition load (get : Keithley -> list float) (dp : nat) : M float :=
  a <- attr get ;;
  lift (np.getitem a dp).

(** The body of the per-point loop, lines 91-103, for the reading [r] the
    instrument delivers ([None]: the measurement raised). *)
Definition point_body (r : option reading) (dp : nat) : M unit :=
  on_sourcemeter (AdapterWrite ":TRAC:FEED:CONT NEXT;") ;;;
  v <- load voltages_set dp ;;
  on_sourcemeter (SetSourceVoltage v) ;;;
  d <- attr delay ;;
  sleep d ;;;
  on_sourcemeter StartBuffer ;;;
  on_sourcemeter WaitForBuffer ;;;
  match r with
  | None => throw InstrumentError
  | Some r =>
      store times set_times dp (now r) ;;;
      store voltages set_voltages dp (mean_voltage r) ;;;
      store currents set_currents dp (F64.neg (mean_current r)) ;;;
      store currents_std set_currents_std dp (std_current r) ;;;
      v1 <- load voltages dp ;;
      c1 <- load currents dp ;;
      store resistances set_resistances dp (F64.abs (F64.div v1 c1)) ;;;
      v2 <- load voltages dp ;;
      c2 <- load currents dp ;;
      store powers set_powers dp (F64.abs (F64.mul v2 c2)) ;;;
      emit (update dp) ;;;
      assign (set_is_receiving true)
  end.

(** Lines 105-110: the end of a repetition. *)
Definition end_of_repetition (repetition : nat) : M unit :=
  emit (save repetition) ;;;
  emit (to_log (msg_finished_curve repetition)) ;;;
  reps <- attr repetitions ;;
  if (Z.of_nat repetition <? reps - 1)%Z then
    d <- attr repetition_delay ;;
    sleep d
  else emit (to_log msg_finished_scan).

(** [Keithley.get_keithley_data]: the six columns of the data frame. *)
Definition get_keithley_data (k : Keithley) : list (string * list float) :=
  [("Time (s)", times k); ("Voltage (V)", voltages k); ("Current (A)", currents k);
   ("Current Std (A)", currents_std k); ("Resistance (Ohm)", resistances k);
   ("Power (W)", powers k)].

(** ** The background thread, one step at a time *)

Definition resume (p : pc) (x : World * result unit) : World * tstate :=
  match x with
  | (w, Ok _) => (w, Running p)
  | (w, Raise e) => (w, Died e)
  end.

(** [Keithley.background_thread], lines 82-111. The two [range] objects are
    built from attributes that no method assigns, so the loop tests read
    them where the loop head is. The body of one per-point iteration is one
    step, and so is the end of a repetition. *)
Definition thread_step (i : input) (p : pc) (w : World) : World * tstate :=
  match p with
  | AtSleep => resume AtConfig (sleep (F64.of_Z 1) w)
  | AtConfig => resume AtWhile (config_keithley no_kwargs (env_open i) w)
  | AtWhile =>
      if is_run (ctl w) then (w, Running (AtRepetition 0)) else (w, Finished)
  | AtRepetition rep =>
      if (rep <? Z.to_nat (repetitions (ctl w)))%nat then
        if is_dummy (ctl w)
        then resume (AtSave rep) (assign (set_is_receiving true) w)
        else (w, Running (AtPoint rep 0))
      else (w, Running AtClearRun)
  | AtPoint rep dp =>
      if (dp <? Z.to_nat (n_data_points (ctl w)))%nat
      then resume (AtPoint rep (dp + 1)) (point_body (env_meas i) dp w)
      else resume (AtSave rep) (on_sourcemeter (SetSourceVoltage F64.zero) w)
  | AtSave rep => resume (AtRepetition (rep + 1)) (end_of_repetition rep w)
  | AtClearRun => resume AtWhile (assign (set_is_run false) w)
  end.

(** ** The caller's methods *)

(** [Keithley.read_keithley_start], lines 62-67, up to the wait loop: the
    caller polls [is_receiving] only when it created the thread. *)
Definition read_keithley_start (w : World) : World :=
  let w := upd (set_is_receiving false) (upd (set_is_run true) w) in
  match gpib_thread (ctl w) with
  | None =>
      let tid := length (threads w) in
      set_caller InStart
        (set_threads (threads w ++ [Running AtSleep])
           (upd (set_gpib_thread (Some tid)) w))
  | Some _ => w
  end.

(** [Keithley.close], line 114, up to the join. *)
Definition close_request (w : World) : World :=
  set_caller InClose (upd (set_is_run false) w).

(** [Thread.join] on [self.gpib_thread] can return. *)
Definition joined (w : World) : bool :=
  match gpib_thread (ctl w) with
  | None => true
  | Some tid =>
      match threads w !! tid with
      | Some t => terminated t
      | None => true
      end
  end.

(** [Keithley.close], lines 117-119, after the join. *)
Definition close_tail : M unit :=
  port <- attr gpib_port ;;
  if negb (String.eqb port "dummy") then
    on_sourcemeter Shutdown ;;;
    emit (to_log msg_disconnected)
  else ret tt.

(** A call made by the caller ends: normally, or with the exception in the
    caller's hands. *)
Definition finish (x : World * result unit) : World :=
  match x with
  | (w, Ok _) => w
  | (w, Raise e) => reach_caller e w
  end.

(** ** Interleavings *)

Inductive action :=
| Start                                       (* read_keithley_start() is called *)
| StartReturns                                (* its wait loop sees is_receiving *)
| Close                                       (* close() is called *)
| CloseReturns                                (* the join returns, close() completes *)
| Config (kw : kwargs) (o : open_outcome)     (* config_keithley(...) is called *)
| Thread (tid : nat) (i : input).             (* thread tid takes a step *)

(** One action, when it is enabled. *)
Definition step (a : action) (w : World) : option World :=
  match a with
  | Start =>
      match caller w with
      | Free => Some (read_keithley_start w)
      | _ => None
      end
  | StartReturns =>
      match caller w with
      | InStart => if is_receiving (ctl w) then Some (set_caller Free w) else None
      | _ => None
      end
  | Close =>
      match caller w with
      | Free => Some (close_request w)
      | _ => None
      end
  | CloseReturns =>
      match caller w with
      | InClose =>
          if joined w then Some (set_caller Free (finish (close_tail w))) else None
      | _ => None
      end
  | Config kw o =>
      match caller w with
      | Free => Some (finish (config_keithley kw o w))
      | _ => None
      end
  | Thread tid i =>
      match threads w !! tid with
      | Some (Running p) =>
          let (w', t) := thread_step i p w in
          Some (set_threads (<[tid := t]> (threads w')) w')
      | _ => None
      end
  end.

Fixpoint run (acts : list action) (w : World) : option World :=
  match acts with
  | [] => Some w
  | a :: rest =>
      match step a w with
      | Some w' => run rest w'
      | None => None
      end
  end.

(** The worlds a controller built by [__init__] can get into. *)
Definition reachable (k : Keithley) (w : World) : Prop :=
  exists acts, run acts (boot k) = Some w.

(** ** Observations on the traces *)

Definition saves (l : list signal) : list nat :=
  omap (fun s => match s with save r => Some r | _ => None end) l.

Definition updates (l : list signal) : list nat :=
  omap (fun s => match s with update dp => Some dp | _ => None end) l.

Definition logs (l : list signal) : list string :=
  omap (fun s => match s with to_log m => Some m | _ => None end) l.

Definition is_shutdown (c : instr_call) : bool :=
  match c with Shutdown => true | _ => false end.

Definition shutdowns (l : list instr_call) : nat :=
  length (filter (fun c => is_shutdown c = true) l).

Definition disconnects (l : list signal) : nat :=
  length (filter (fun m => m = msg_disconnected) (logs l)).

(** ** Net effects of the method bodies *)

(** The four instrument calls that open a per-point iteration, for the
    voltage [v0] to be set. *)
Definition measured (v0 : float) (w : World) : World :=
  call_instrument WaitForBuffer
    (call_instrument StartBuffer
       (call_instrument (SetSourceVoltage v0)
          (call_instrument (AdapterWrite ":TRAC:FEED:CONT NEXT;") w))).

(** The successful path of [config_keithley] after the first log line. *)
Definition connect (kw : kwargs) (w : World) : World :=
  let port := gpib_port (ctl w) in
  let av := default (averages (ctl w)) (kw_averages kw) in
  let cc := default (compliance_current (ctl w)) (kw_compliance_current kw) in
  call_instrument EnableSource
    (call_instrument (ConfigBuffer av)
       (upd (set_averages av)
          (call_instrument MeasureCurrent
             (call_instrument (SetComplianceCurrent cc)
                (call_instrument UseFrontTerminals
                   (call_instrument Reset
                      (emit_signal (to_log (msg_connected port))
                         (upd (set_sourcemeter (Some port)) w)))))))).

(** ** State predicates *)

(** What a completed per-point body has done to the object, for the reading
    [r] at index [dp]. *)
Definition recorded (r : reading) (dp : nat) (k : Keithley) : Keithley :=
  let v := mean_voltage r in
  let c := F64.neg (mean_current r) in
  set_is_receiving true
    (set_powers (<[dp := F64.abs (F64.mul v c)]> (powers k))
       (set_resistances (<[dp := F64.abs (F64.div v c)]> (resistances k))
          (set_currents_std (<[dp := std_current r]> (currents_std k))
             (set_currents (<[dp := c]> (currents k))
                (set_voltages (<[dp := mean_voltage r]> (voltages k))
                   (set_times (<[dp := now r]> (times k)) k)))))).

(** The voltage sequence and the six sample arrays all have
    [n_data_points] entries. *)
Definition shaped (k : Keithley) : Prop :=
  let n := Z.to_nat (n_data_points k) in
  length (voltages_set k) = n /\ length (times k) = n /\
  length (voltages k) = n /\ length (currents k) = n /\
  length (currents_std k) = n /\ length (resistances k) = n /\
  length (powers k) = n.

(** All six sample arrays hold zeros only. *)
Definition all_zero (k : Keithley) : Prop :=
  Forall (fun a => Forall (fun x => x = F64.zero) a)
    [times k; voltages k; currents k; currents_std k; resistances k; powers k].

(** Resistance and power at index [i] are derived from the voltage and
    current stored at [i]. *)
Definition derived_at (k : Keithley) (i : nat) : Prop :=
  exists v c,
    voltages k !! i = Some v /\ currents k !! i = Some c /\
    resistances k !! i = Some (F64.abs (F64.div v c)) /\
    powers k !! i = Some (F64.abs (F64.mul v c)).

(** Simulation mode, or an instrument at hand. *)
Definition armed (k : Keithley) : Prop :=
  is_dummy k = true \/ is_Some (sourcemeter k).

Definition pc_ok (p : pc) (k : Keithley) : Prop :=
  match p with
  | AtSleep | AtConfig => True
  | AtPoint _ _ => is_Some (sourcemeter k)
  | _ => armed k
  end.

Definition tstate_ok (t : tstate) (k : Keithley) : Prop :=
  match t with
  | Running p => pc_ok p k
  | Finished => True
  | Died e => e = InstrumentError
  end.

(** The thread attribute and the threads that exist agree, and there is at
    most one. *)
Definition bookkeeping (w : World) : Prop :=
  match gpib_thread (ctl w), threads w with
  | None, [] => True
  | Some 0, [t] => tstate_ok t (ctl w)
  | _, _ => False
  end.

Definition sound (w : World) : Prop :=
  shaped (ctl w) /\ bookkeeping w /\
    Forall (fun dp => dp < Z.to_nat (n_data_points (ctl w))) (updates (signals w)) /\
    (forall i, i ∈ updates (signals w) -> derived_at (ctl w) i).





(** The repetitions a thread in state [t] has completed, as the saves [sv]
    emitted so far; [q] tells that no [close()] was called yet. *)
Definition progress (q : bool) (t : tstate) (k : Keithley) (sv : list nat) : Prop :=
  let R := Z.to_nat (repetitions k) in
  match t with
  | Running AtSleep | Running AtConfig =>
      sv = [] /\ (q = true -> is_run k = true)
  | Running AtWhile =>
      (sv = [] /\ (q = true -> is_run k = true)) \/ (sv = seq 0 R /\ is_run k = false)
  | Running (AtRepetition r) => r <= R /\ sv = seq 0 r
  | Running (AtPoint r _) | Running (AtSave r) => r < R /\ sv = seq 0 r
  | Running AtClearRun => sv = seq 0 R
  | Finished => sv = seq 0 R \/ (q = false /\ sv = [])
  | Died _ => exists r, r <= R /\ sv = seq 0 r
  end.

Definition on_course (q : bool) (w : World) : Prop :=
  match threads w with
  | [] => saves (signals w) = [] /\ (q = true -> is_run (ctl w) = true)
  | [t] => progress q t (ctl w) (saves (signals w))
  | _ => False
  end.

(** ** Plotting data *)

(** What [plot] hands to [axis.plot] as the ordinates: a Python list of
    ints in simulation mode, the current array otherwise. *)
Inductive series :=
| IntList (l : list Z)
| FloatArray (a : list float).

Definition series_length (s : series) : nat :=
  match s with
  | IntList l => length l
  | FloatArray a => length a
  end.

(** [Keithley.plot], lines 130-135: the abscissae and ordinates drawn. The
    figure handling around them is matplotlib's. *)
Definition plot_data (k : Keithley) : list float * series :=
  if String.eqb (gpib_port k) "dummy"
  then (voltages_set k, IntList (replicate (Z.to_nat (n_data_points k)) 0%Z))
  else (voltages_set k, FloatArray (currents k)).

(** ** Further trace observations *)

(** [m] complete passes over the indices [0 .. n-1]. *)
Definition passes (m n : nat) : list nat := concat (replicate m (seq 0 n)).

(** The number of completed calls of [close()] among the actions. *)
Fixpoint close_returns (acts : list action) : nat :=
  match acts with
  | [] => 0
  | CloseReturns :: rest => S (close_returns rest)
  | _ :: rest => close_returns rest
  end.

(** The thread has not reached a point where it sets [is_receiving]. *)
Definition before_repetitions (t : tstate) : Prop :=
  match t with
  | Running (AtPoint _ _) | Running (AtSave _) => False
  | _ => True
  end.

(** ** Scenario inputs *)

(** An environment whose opens succeed and whose measurements fail, for the
    steps that measure nothing. *)
Definition tick : input := {| env_open := Connected; env_meas := None |}.

(** An environment delivering the reading [r]. *)
Definition meas (r : reading) : input := {| env_open := Connected; env_meas := Some r |}.

(** One volt, one ampere, at time zero. *)
Definition unit_reading : reading :=
  {| now := F64.zero; mean_voltage := F64.of_Z 1; mean_current := F64.of_Z 1;
     std_current := F64.zero |}.

(** One volt and no current. *)
Definition open_circuit : reading :=
  {| now := F64.zero; mean_voltage := F64.of_Z 1; mean_current := F64.zero;
     std_current := F64.zero |}.

(** ** Whole sweeps *)







(** ** Invariants of the further properties *)



(** The progress signals [us] fit the thread state [t] of a sweep of [n] points. *)
Definition paced_thread (n : nat) (t : tstate) (us : list nat) : Prop :=
  match t with
  | Running (AtPoint _ dp) => dp <= n /\ exists m, us = passes m n ++ seq 0 dp
  | Died _ => exists m dp, dp <= n /\ us = passes m n ++ seq 0 dp
  | _ => exists m, us = passes m n
  end.

(** The progress signals emitted so far fit where the thread is. *)
Definition paced (w : World) : Prop :=
  sound w /\
  match threads w with
  | [] => updates (signals w) = []
  | t :: _ => paced_thread (Z.to_nat (n_data_points (ctl w))) t (updates (signals w))
  end.

(** A controller without repetitions to do never signals readiness. *)
Definition waiting (w : World) : Prop :=
  sound w /\ (Z.to_nat (repetitions (ctl w)) = 0)%nat /\
  is_receiving (ctl w) = false /\ saves (signals w) = [] /\
  Forall before_repetitions (threads w) /\
  (threads w <> [] -> caller w = InStart).

(** Readiness means data or simulation. *)
Definition ready_inv (w : World) : Prop :=
  is_receiving (ctl w) = true ->
  is_dummy (ctl w) = true \/ updates (signals w) <> [].

(** * Properties *)

(** *** Facts of binary64 arithmetic used below *)

Lemma F64_of_Z_0 : F64.of_Z 0 = F64.zero.
Proof. reflexivity. Qed.

Lemma F64_eqb_refl (x : float) : F64.is_finite x = true -> F64.eqb x x = true.
Proof.
  destruct x as [s|s| |s m e]; try discriminate; intros _; [reflexivity|].
  unfold F64.eqb, SFeqb, SFcompare.
  destruct s; rewrite Z.compare_refl, Pos.compare_cont_refl; reflexivity.
Qed.

Lemma F64_add_zero_l (s : bool) (x : float) :
  F64.is_finite x = true -> F64.eqb (F64.add (S754_zero s) x) x = true.
Proof.
  destruct x as [s'|s'| |s' m e]; try discriminate; intros _.
  - destruct s, s'; reflexivity.
  - apply (F64_eqb_refl (S754_finite s' m e)). reflexivity.
Qed.

Lemma F64_mul_zero_l (s : bool) (x : float) :
  F64.is_finite x = true -> F64.is_zero (F64.mul (S754_zero s) x) = true.
Proof. destruct x; try discriminate; reflexivity. Qed.

Lemma F64_eqb_zero (x : float) : F64.eqb x F64.zero = true -> F64.is_zero x = true.
Proof. destruct x as [s|[]| |[] m e]; try discriminate; reflexivity. Qed.

Lemma F64_eqb_zero_finite (x : float) :
  F64.is_finite x = true -> F64.eqb x F64.zero = false -> F64.is_zero x = false.
Proof. destruct x as [s|[]| |[] m e]; try discriminate; reflexivity. Qed.

(** A quotient that is a zero comes from a numerator that is a number, and
    the same numerator divides any zero into a zero. *)
Lemma F64_div_zero_inv (x y : float) :
  F64.is_zero (F64.div x y) = true ->
  F64.is_finite x = true /\ F64.is_zero (F64.div F64.zero y) = true.
Proof.
  destruct x as [sx|sx| |sx mx ex], y as [sy|sy| |sy my ey]; try discriminate; auto.
Qed.

(** The first sample of a sequence is numerically the start. *)
Lemma sample_0 (start stop : float) (num : Z) :
  F64.is_finite start = true ->
  F64.is_finite (if (1 <? num)%Z then np.linspace_step start stop num
                 else F64.sub stop start) = true ->
  F64.eqb (np.sample start stop num 0) start = true.
Proof.
  intros Hs Hf. unfold np.sample. 
  change (F64.of_Z (Z.of_nat 0)) with (S754_zero false).
  replace (0 <? num - 1)%Z with (1 <? num)%Z by (destruct (Z.ltb_spec 1 num), (Z.ltb_spec 0 (num - 1)); lia).
  destruct (1 <? num)%Z.
  - destruct (F64.eqb (np.linspace_step start stop num) F64.zero) eqn:E.
    + apply F64_eqb_zero in E. unfold np.linspace_step in E.
      apply F64_div_zero_inv in E as [Hd Hz].
      destruct (F64.div F64.zero (F64.of_Z (num - 1))) as [s| | |] eqn:Eq; try discriminate.
      change (F64.div (S754_zero false) (F64.of_Z (num - 1))) with (F64.div F64.zero (F64.of_Z (num - 1))).
      rewrite Eq.
      pose proof (F64_mul_zero_l s _ Hd) as Hm.
      destruct (F64.mul (S754_zero s) (F64.sub stop start)) eqn:Em; try discriminate.
      apply F64_add_zero_l, Hs.
    + pose proof (F64_mul_zero_l false _ Hf) as Hm.
      destruct (F64.mul (S754_zero false) (np.linspace_step start stop num)) eqn:Em; try discriminate.
      apply F64_add_zero_l, Hs.
  - pose proof (F64_mul_zero_l false _ Hf) as Hm.
    destruct (F64.mul (S754_zero false) (F64.sub stop start)) eqn:Em; try discriminate.
    apply F64_add_zero_l, Hs.
Qed.

Lemma linspace_Ok (start stop : float) (num : Z) (l : list float) :
  np.linspace start stop num = Ok l ->
  (0 <= num)%Z /\
  l = (if (1 <? num)%Z
       then <[(Z.to_nat num - 1)%nat := stop]> (map (np.sample start stop num) (seq 0 (Z.to_nat num)))
       else map (np.sample start stop num) (seq 0 (Z.to_nat num))).
Proof.
  unfold np.linspace. destruct (Z.ltb_spec num 0); [discriminate|].
  intros [= <-]. split; [lia | reflexivity].
Qed.

Lemma linspace_length (start stop : float) (num : Z) (l : list float) :
  np.linspace start stop num = Ok l -> length l = Z.to_nat num.
Proof.
  intros H. apply linspace_Ok in H as [_ ->].
  destruct (1 <? num)%Z; rewrite ?length_insert, length_map, length_seq; reflexivity.
Qed.

(** *** Running method bodies *)

Ltac exec :=
  unfold config_keithley, point_body, end_of_repetition, close_tail,
    on_sourcemeter, store, load, bind, attr, assign, emit, instr, lift,
    ret, throw, sleep; simpl.

Lemma setitem_Ok (a : list float) (i : nat) (v : float) :
  i < length a -> np.setitem a i v = Ok (<[i := v]> a).
Proof. intros H. unfold np.setitem. apply Nat.ltb_lt in H. rewrite H. reflexivity. Qed.

Lemma getitem_Ok (a : list float) (i : nat) (v : float) :
  a !! i = Some v -> np.getitem a i = Ok v.
Proof. intros H. unfold np.getitem. rewrite H. reflexivity. Qed.

(** The per-point body on a shaped object with an instrument: the four
    instrument calls, then either the failure of the measurement or the
    six stores and the progress signal. *)
Lemma point_body_spec (r : option reading) (dp : nat) (w : World) (s : string) :
  shaped (ctl w) -> dp < Z.to_nat (n_data_points (ctl w)) ->
  sourcemeter (ctl w) = Some s ->
  exists v0, voltages_set (ctl w) !! dp = Some v0 /\
  point_body r dp w =
    match r with
    | None => (measured v0 w, Raise InstrumentError)
    | Some rd => (emit_signal (update dp) (upd (recorded rd dp) (measured v0 w)), Ok tt)
    end.
Proof.
  intros (Hvs & Ht & Hv & Hc & Hcs & Hr & Hp) Hdp Hsm.
  destruct (lookup_lt_is_Some_2 (voltages_set (ctl w)) dp) as [v0 Hv0]; [lia|].
  exists v0. split; [exact Hv0|].
  exec. rewrite Hsm. simpl. rewrite (getitem_Ok _ _ _ Hv0). simpl.
  repeat (rewrite Hsm; simpl).
  destruct r as [rd|]; [|reflexivity]. simpl.
  unfold np.getitem.
  repeat (first [rewrite setitem_Ok by (simpl; rewrite ?length_insert; lia)
                | rewrite list_lookup_insert_eq by lia]; simpl).
  reflexivity.
Qed.

Lemma config_keithley_eq (kw : kwargs) (o : open_outcome) (w : World) :
  config_keithley kw o w =
    let port := gpib_port (ctl w) in
    let w1 := emit_signal (to_log (msg_trying port)) w in
    if is_dummy (ctl w) then (w1, Ok tt)
    else match o with
         | Connected => (connect kw w1, Ok tt)
         | OpenVisaIOError =>
             (upd (set_gpib_port "dummy") (emit_signal (to_log (msg_failed port)) w1), Ok tt)
         | OpenOtherError => (w1, Raise InstrumentError)
         end.
Proof.
  unfold is_dummy. exec. destruct (String.eqb (gpib_port (ctl w)) "dummy"); [reflexivity|].
  destruct o; reflexivity.
Qed.

Lemma end_of_repetition_eq (rep : nat) (w : World) :
  end_of_repetition rep w =
    let w2 := emit_signal (to_log (msg_finished_curve rep)) (emit_signal (save rep) w) in
    (if (Z.of_nat rep <? repetitions (ctl w) - 1)%Z then w2
     else emit_signal (to_log msg_finished_scan) w2, Ok tt).
Proof. exec. destruct (Z.of_nat rep <? repetitions (ctl w) - 1)%Z; reflexivity. Qed.

Lemma close_tail_eq (w : World) :
  close_tail w =
    if is_dummy (ctl w) then (w, Ok tt)
    else match sourcemeter (ctl w) with
         | Some _ => (emit_signal (to_log msg_disconnected) (call_instrument Shutdown w), Ok tt)
         | None => (w, Raise AttributeError)
         end.
Proof.
  unfold is_dummy. exec. destruct (String.eqb (gpib_port (ctl w)) "dummy"); [reflexivity|].
  simpl. destruct (sourcemeter (ctl w)); reflexivity.
Qed.

(** *** Traces *)

#[global] Arguments saves : simpl never.
#[global] Arguments updates : simpl never.
#[global] Arguments logs : simpl never.


Lemma saves_snoc (l : list signal) (s : signal) :
  saves (l ++ [s]) = saves l ++ match s with save r => [r] | _ => [] end.
Proof. unfold saves. rewrite omap_app. destruct s; reflexivity. Qed.

Lemma updates_snoc (l : list signal) (s : signal) :
  updates (l ++ [s]) = updates l ++ match s with update dp => [dp] | _ => [] end.
Proof. unfold updates. rewrite omap_app. destruct s; reflexivity. Qed.

Lemma logs_snoc (l : list signal) (s : signal) :
  logs (l ++ [s]) = logs l ++ match s with to_log m => [m] | _ => [] end.
Proof. unfold logs. rewrite omap_app. destruct s; reflexivity. Qed.

(** An invariant of every action holds along every run. *)
Lemma run_invariant (P : World -> Prop) :
  (forall a w w', P w -> step a w = Some w' -> P w') ->
  forall acts w w', P w -> run acts w = Some w' -> P w'.
Proof.
  intros Hstep acts. induction acts as [|a acts IH]; simpl; intros w w' HP Hrun.
  - congruence.
  - destruct (step a w) as [w1|] eqn:E; [|discriminate]. eauto.
Qed.


(** *** The shape of the object and the single thread *)

Lemma shaped_recorded (r : reading) (dp : nat) (k : Keithley) :
  shaped k -> shaped (recorded r dp k).
Proof. unfold shaped. simpl. rewrite !length_insert. tauto. Qed.

Lemma derived_at_recorded (r : reading) (dp i : nat) (k : Keithley) :
  shaped k -> dp < Z.to_nat (n_data_points k) ->
  (i = dp \/ derived_at k i) -> derived_at (recorded r dp k) i.
Proof.
  intros (_ & _ & Hv & Hc & _ & Hr & Hp) Hdp Hi. unfold derived_at. simpl.
  destruct (decide (i = dp)) as [->|Hne].
  - rewrite !list_lookup_insert_eq by lia.
    exists (mean_voltage r), (F64.neg (mean_current r)). auto.
  - rewrite !list_lookup_insert_ne by congruence.
    destruct Hi as [?|Hi]; [congruence | exact Hi].
Qed.

Lemma thread_step_threads (i : input) (p : pc) (w : World) :
  threads (thread_step i p w).1 = threads w /\ caller (thread_step i p w).1 = caller w.
Proof.
  destruct p; simpl.
  - auto.
  - rewrite config_keithley_eq. simpl. destruct (is_dummy (ctl w)); [auto|].
    destruct (env_open i); auto.
  - destruct (is_run (ctl w)); auto.
  - destruct (rep <? _); [destruct (is_dummy (ctl w))|]; auto.
  - destruct (dp <? _).
    + exec. repeat (case_match; simpl in *; simplify_eq); auto.
    + exec. destruct (sourcemeter (ctl w)); auto.
  - rewrite end_of_repetition_eq. simpl. destruct (_ <? _)%Z; auto.
  - auto.
Qed.

Lemma bookkeeping_thread (w : World) (tid : nat) (t : tstate) :
  bookkeeping w -> threads w !! tid = Some t ->
  tid = 0 /\ threads w = [t] /\ gpib_thread (ctl w) = Some 0 /\ tstate_ok t (ctl w).
Proof.
  unfold bookkeeping. intros Hb Hl.
  destruct (gpib_thread (ctl w)) as [[|n]|], (threads w) as [|t0 [|t1 ts]];
    try contradiction; try discriminate.
  destruct tid as [|tid]; simpl in Hl; [|discriminate].
  injection Hl as ->. auto.
Qed.

Ltac norm :=
  unfold sound, bookkeeping, shaped, armed, is_dummy in *; cbn in *;
  rewrite ?updates_snoc, ?app_nil_r in *.

Lemma sound_step (a : action) (w w' : World) :
  sound w -> step a w = Some w' -> sound w'.
Proof.
  intros (Hsh & Hbk & Hup & Hder) Hstep. unfold step in Hstep.
  destruct a.
  - (* Start *)
    destruct (caller w); try discriminate. injection Hstep as <-.
    unfold read_keithley_start. norm.
    destruct (gpib_thread (ctl w)) as [[|n]|] eqn:Eg, (threads w) as [|t0 [|t1 ts]] eqn:Et;
      try contradiction; norm; rewrite ?Eg, ?Et; auto.
  - (* StartReturns *)
    destruct (caller w); try discriminate.
    destruct (is_receiving (ctl w)); [|discriminate]. injection Hstep as <-.
    norm; auto.
  - (* Close *)
    destruct (caller w); try discriminate. injection Hstep as <-.
    norm. repeat split; try tauto.
  - (* CloseReturns *)
    destruct (caller w); try discriminate.
    destruct (joined w); [|discriminate]. injection Hstep as <-.
    rewrite close_tail_eq.
    destruct (is_dummy (ctl w)); [|destruct (sourcemeter (ctl w))]; norm; auto.
  - (* Config *)
    destruct (caller w); try discriminate. injection Hstep as <-.
    rewrite config_keithley_eq. cbn.
    destruct (is_dummy (ctl w)) eqn:Ed; [|destruct o]; norm;
      (repeat split; try tauto);
      destruct (gpib_thread (ctl w)) as [[|n]|], (threads w) as [|t0 [|t1 ts]]; auto;
      destruct t0 as [[]| |]; cbn in *; unfold armed, is_dummy in *; cbn in *;
      try tauto; eauto.
  - (* Thread *)
    destruct (threads w !! tid) as [[p| |]|] eqn:El; try discriminate.
    destruct (bookkeeping_thread _ _ _ Hbk El) as (-> & Et & Eg & Hok).
    pose proof (thread_step_threads i p w) as [Ett _].
    destruct (thread_step i p w) as [w1 t] eqn:Ets. cbn in Ett. rewrite Ett, Et in Hstep.
    cbn in Hstep. injection Hstep as <-.
    destruct p; unfold thread_step in Ets.
    + cbn in Ets. injection Ets as <- <-. norm. rewrite Eg. auto.
    + rewrite config_keithley_eq in Ets. cbn in Ets.
      destruct (is_dummy (ctl w)) eqn:Ed; [|destruct (env_open i)];
        injection Ets as <- <-; norm; rewrite ?Eg; cbn;
        unfold armed, is_dummy; cbn; (repeat split; try tauto); eauto.
    + destruct (is_run (ctl w)); injection Ets as <- <-; norm; rewrite Eg; auto.
    + destruct (rep <? _); [destruct (is_dummy (ctl w)) eqn:Ed|];
        injection Ets as <- <-; norm; rewrite ?Eg; cbn in *;
        unfold armed, is_dummy in *; cbn in *; (repeat split; try tauto).
      destruct Hok as [Hok|Hok]; [congruence | exact Hok].
    + destruct (dp <? _) eqn:Edp.
      * apply Nat.ltb_lt in Edp. cbn in Hok. destruct Hok as [s Hs].
        destruct (point_body_spec (env_meas i) dp w s Hsh Edp Hs) as (v0 & Hv0 & Hpb).
        rewrite Hpb in Ets. destruct (env_meas i) as [rd|]; injection Ets as <- <-.
        -- split; [apply shaped_recorded, Hsh|].
           split; [unfold bookkeeping; cbn; rewrite Eg, Hs; cbn; eauto|].
           cbn. rewrite updates_snoc.
           split; [apply Forall_app; split; [exact Hup | repeat constructor; exact Edp]|].
           intros j Hj. apply derived_at_recorded; auto.
           apply elem_of_app in Hj as [Hj|Hj]; [right; auto|].
           left. apply list_elem_of_singleton in Hj. exact Hj.
        -- norm. rewrite Eg. auto.
      * cbn in Hok. destruct Hok as [s Hs]. revert Ets. exec. rewrite Hs. cbn.
        intros [= <- <-]. norm. rewrite Eg. cbn. unfold armed. rewrite Hs.
        repeat split; try tauto; eauto.
    + rewrite end_of_repetition_eq in Ets. cbn in Ets.
      destruct (_ <? _)%Z; injection Ets as <- <-; norm; rewrite ?Eg; auto.
    + cbn in Ets. injection Ets as <- <-. norm. rewrite Eg. auto.
Qed.

(** What a step of the thread leaves alone. *)
Lemma thread_step_frame (i : input) (p : pc) (w : World) :
  let w' := (thread_step i p w).1 in
  repetitions (ctl w') = repetitions (ctl w) /\
  n_data_points (ctl w') = n_data_points (ctl w) /\
  voltages_set (ctl w') = voltages_set (ctl w) /\
  gpib_thread (ctl w') = gpib_thread (ctl w) /\
  (is_dummy (ctl w) = true -> is_dummy (ctl w') = true) /\
  (p <> AtClearRun -> is_run (ctl w') = is_run (ctl w)).
Proof.
  destruct p; unfold thread_step.
  - cbn. intuition congruence.
  - rewrite config_keithley_eq. cbn.
    destruct (is_dummy (ctl w)) eqn:Ed; [|destruct (env_open i)]; cbn; intuition congruence.
  - destruct (is_run (ctl w)) eqn:E; cbn; intuition congruence.
  - destruct (rep <? _); [destruct (is_dummy (ctl w)) eqn:E|]; cbn; unfold is_dummy in *; cbn; intuition congruence.
  - destruct (dp <? _).
    + exec. repeat (case_match; cbn in *; simplify_eq); cbn; intuition congruence.
    + exec. destruct (sourcemeter (ctl w)); cbn; intuition congruence.
  - rewrite end_of_repetition_eq. cbn. destruct (_ <? _)%Z; cbn; intuition congruence.
  - cbn. intuition congruence.
Qed.


(** *** Repetitions completed *)




Lemma seq_snoc (r : nat) : seq 0 r ++ [r] = seq 0 (r + 1).
Proof. rewrite seq_app. reflexivity. Qed.


Lemma on_course_weaken (q : bool) (w : World) : on_course q w -> on_course false w.
Proof.
  unfold on_course. destruct (threads w) as [|t [|]]; [| |tauto].
  - intuition congruence.
  - unfold progress. destruct t as [[]| |]; intuition congruence.
Qed.


(** *** Construction *)

Section Construction.

Variables (port : string) (n av reps : Z) (rd d vmin vmax cc : float) (k : Keithley).
Hypothesis Hinit : __init__ port n av reps rd d vmin vmax cc = Ok k.

Lemma init_fields :
  np.linspace vmin vmax n = Ok (voltages_set k) /\
  gpib_port k = port /\ n_data_points k = n /\ repetitions k = reps /\
  min_voltage k = vmin /\ max_voltage k = vmax /\
  times k = np.zeros_like (voltages_set k) /\
  voltages k = np.zeros_like (voltages_set k) /\
  currents k = np.zeros_like (voltages_set k) /\
  currents_std k = np.zeros_like (voltages_set k) /\
  resistances k = np.zeros_like (voltages_set k) /\
  powers k = np.zeros_like (voltages_set k) /\
  is_run k = true /\ gpib_thread k = None.
Proof using Hinit.
  unfold __init__ in Hinit.
  destruct (np.linspace vmin vmax n) as [vs|e]; [|discriminate].
  injection Hinit as <-. cbn. repeat split; reflexivity.
Qed.

Lemma init_shaped : shaped k.
Proof using Hinit.
  destruct init_fields as (Hl & _ & Hn & _ & _ & _ & Ht & Hv & Hc & Hcs & Hr & Hp & _).
  unfold shaped. rewrite Ht, Hv, Hc, Hcs, Hr, Hp, Hn. unfold np.zeros_like.
  rewrite !length_replicate, (linspace_length _ _ _ _ Hl). tauto.
Qed.

Lemma init_all_zero : all_zero k.
Proof using Hinit.
  destruct init_fields as (_ & _ & _ & _ & _ & _ & Ht & Hv & Hc & Hcs & Hr & Hp & _).
  unfold all_zero. rewrite Ht, Hv, Hc, Hcs, Hr, Hp. unfold np.zeros_like.
  repeat constructor; apply Forall_replicate; reflexivity.
Qed.

Lemma init_sound : sound (boot k).
Proof using Hinit.
  destruct init_fields as (_ & _ & _ & _ & _ & _ & _ & _ & _ & _ & _ & _ & _ & Hg).
  split; [exact init_shaped|]. unfold bookkeeping. cbn. rewrite Hg.
  split; [exact I|]. split; [constructor|]. intros i Hi. cbn in Hi. inversion Hi.
Qed.


End Construction.

(** *** What no action assigns *)

Lemma step_plan (a : action) (w w' : World) :
  step a w = Some w' ->
  n_data_points (ctl w') = n_data_points (ctl w) /\
  repetitions (ctl w') = repetitions (ctl w) /\
  voltages_set (ctl w') = voltages_set (ctl w) /\
  (is_dummy (ctl w) = true -> is_dummy (ctl w') = true).
Proof.
  intros Hstep. unfold step in Hstep. destruct a.
  - destruct (caller w); try discriminate. injection Hstep as <-.
    unfold read_keithley_start. cbn. destruct (gpib_thread (ctl w)); cbn; unfold is_dummy in *; cbn; intuition congruence.
  - destruct (caller w); try discriminate.
    destruct (is_receiving (ctl w)); [|discriminate]. injection Hstep as <-. cbn. unfold is_dummy in *; cbn; intuition congruence.
  - destruct (caller w); try discriminate. injection Hstep as <-. cbn. unfold is_dummy in *; cbn; intuition congruence.
  - destruct (caller w); try discriminate.
    destruct (joined w); [|discriminate]. injection Hstep as <-.
    rewrite close_tail_eq.
    destruct (is_dummy (ctl w)) eqn:Ed; [|destruct (sourcemeter (ctl w))]; cbn;
      unfold is_dummy in *; cbn; intuition congruence.
  - destruct (caller w); try discriminate. injection Hstep as <-.
    rewrite config_keithley_eq. cbn.
    destruct (is_dummy (ctl w)) eqn:Ed; [|destruct o]; cbn;
      unfold is_dummy in *; cbn; intuition congruence.
  - destruct (threads w !! tid) as [[p| |]|]; try discriminate.
    pose proof (thread_step_frame i p w) as (Fr & Fn & Fv & _ & Fd & _).
    destruct (thread_step i p w) as [w1 t]. injection Hstep as <-. cbn in *. intuition congruence.
Qed.

Lemma run_plan (acts : list action) (w w' : World) :
  run acts w = Some w' ->
  n_data_points (ctl w') = n_data_points (ctl w) /\
  repetitions (ctl w') = repetitions (ctl w) /\
  voltages_set (ctl w') = voltages_set (ctl w) /\
  (is_dummy (ctl w) = true -> is_dummy (ctl w') = true).
Proof.
  revert w. induction acts as [|a acts IH]; cbn; intros w Hr.
  - injection Hr as <-. tauto.
  - destruct (step a w) as [w1|] eqn:E; [|discriminate].
    destruct (step_plan _ _ _ E) as (H1 & H2 & H3 & H4).
    destruct (IH _ Hr) as (G1 & G2 & G3 & G4).
    rewrite G1, G2, G3, H1, H2, H3. tauto.
Qed.

Lemma run_sound (acts : list action) (w w' : World) :
  sound w -> run acts w = Some w' -> sound w'.
Proof. apply (run_invariant sound), sound_step. Qed.

(** *** The voltage sequence *)

Lemma linspace_lookup (start stop : float) (num : Z) (l : list float) (i : nat) :
  np.linspace start stop num = Ok l -> i < Z.to_nat num - 1 ->
  l !! i = Some (np.sample start stop num i).
Proof.
  intros H Hi. apply linspace_Ok in H as [_ ->].
  assert (Hm : map (np.sample start stop num) (seq 0 (Z.to_nat num)) !! i
               = Some (np.sample start stop num i)).
  { rewrite list_lookup_fmap, lookup_seq_lt by lia. reflexivity. }
  destruct (1 <? num)%Z; [|exact Hm].
  rewrite list_lookup_insert_ne by lia. exact Hm.
Qed.

Lemma linspace_last (start stop : float) (num : Z) (l : list float) :
  np.linspace start stop num = Ok l -> (2 <= num)%Z -> last l = Some stop.
Proof.
  intros H Hn. pose proof (linspace_length _ _ _ _ H) as Hlen.
  apply linspace_Ok in H as [_ Hl].
  destruct (Z.ltb_spec 1 num); [|lia]. rewrite last_lookup, Hlen.
  replace (pred (Z.to_nat num)) with (Z.to_nat num - 1) by lia. subst l.
  apply list_lookup_insert_eq. rewrite length_map, length_seq. lia.
Qed.

Lemma linspace_single (start stop : float) (l : list float) :
  np.linspace start stop 1 = Ok l -> l = [np.sample start stop 1 0].
Proof. intros H. apply linspace_Ok in H as [_ ->]. reflexivity. Qed.

Lemma linspace_head (start stop : float) (num : Z) (l : list float) :
  np.linspace start stop num = Ok l -> (1 <= num)%Z ->
  head l = Some (np.sample start stop num 0).
Proof.
  intros H Hn. apply linspace_Ok in H as [_ ->]. rewrite head_lookup.
  assert (Hm : map (np.sample start stop num) (seq 0 (Z.to_nat num)) !! 0
               = Some (np.sample start stop num 0)).
  { rewrite list_lookup_fmap, lookup_seq_lt by lia. reflexivity. }
  destruct (Z.ltb_spec 1 num); [|exact Hm].
  rewrite list_lookup_insert_ne by lia. exact Hm.
Qed.

(** * Properties stated by the specification *)

(** C7, as stated, fails: a one-point sweep from 0 to 1 holds the single
    entry 0, so its last entry is the minimum and not the maximum. *)
Lemma sweep_plan_one_point_misses_max :
  exists k,
    __init__ "dummy" 1 5 1 F64.zero F64.zero F64.zero (F64.of_Z 1) F64.zero = Ok k /\
    (1 <= n_data_points k)%Z /\
    last (voltages_set k) = Some (min_voltage k) /\
    last (voltages_set k) <> Some (max_voltage k) /\
    F64.eqb (min_voltage k) (max_voltage k) = false.
Proof.
  eexists. split; [reflexivity|]. cbn. repeat split; [lia | discriminate].
Qed.

(** C7, amended: for [n_data_points >= 1] the voltage sequence built by the
    constructor has exactly [n_data_points] entries; every entry but the
    last is the binary64 sample [min + i * step] of [np.linspace]; with two
    points or more the last entry is exactly the maximum; with one point the
    sequence is the single first sample; and the first entry is
    numerically the minimum whenever the minimum and the step (the span,
    for one point) are numbers. *)
Theorem sweep_plan_shape (port : string) (n av reps : Z)
    (rd d vmin vmax cc : float) (k : Keithley) :
  __init__ port n av reps rd d vmin vmax cc = Ok k -> (1 <= n)%Z ->
  length (voltages_set k) = Z.to_nat n /\
  (forall i, i < Z.to_nat n - 1 ->
     voltages_set k !! i = Some (np.sample vmin vmax n i)) /\
  ((2 <= n)%Z -> last (voltages_set k) = Some vmax) /\
  (n = 1%Z -> voltages_set k = [np.sample vmin vmax 1 0]) /\
  (F64.is_finite vmin = true ->
   F64.is_finite (if (1 <? n)%Z then np.linspace_step vmin vmax n
                  else F64.sub vmax vmin) = true ->
   exists x, head (voltages_set k) = Some x /\ F64.eqb x vmin = true).
Proof.
  intros Hinit Hn.
  destruct (init_fields _ _ _ _ _ _ _ _ _ _ Hinit) as (Hl & _).
  split; [exact (linspace_length _ _ _ _ Hl)|].
  split; [intros i Hi; exact (linspace_lookup _ _ _ _ _ Hl Hi)|].
  split; [intros H2; exact (linspace_last _ _ _ _ Hl H2)|].
  split; [intros ->; exact (linspace_single _ _ _ Hl)|].
  intros Hf Hs. exists (np.sample vmin vmax n 0).
  split; [exact (linspace_head _ _ _ _ Hl Hn) | exact (sample_0 _ _ _ Hf Hs)].
Qed.

Lemma sweep_plan_shape_witness :
  exists k,
    __init__ "dummy" 5 5 2 F64.zero F64.zero F64.zero (F64.of_Z 1) F64.zero = Ok k /\
    length (voltages_set k) = 5 /\
    last (voltages_set k) = Some (F64.of_Z 1) /\
    voltages_set k =
      [F64.zero; F64.dyadic 1 (-2); F64.dyadic 1 (-1); F64.dyadic 3 (-2); F64.of_Z 1].
Proof.
  eexists. split; [reflexivity|].
  destruct (sweep_plan_shape "dummy" 5 5 2 F64.zero F64.zero F64.zero (F64.of_Z 1)
              F64.zero _ eq_refl ltac:(lia)) as (Hlen & _ & Hlast & _).
  split; [exact Hlen|]. split; [apply Hlast; lia|]. reflexivity.
Defined.

(** What [config_keithley] leaves alone, whatever its arguments and
    whatever the open does. *)
Lemma config_keithley_frame (kw : kwargs) (o : open_outcome) (w : World) :
  let w' := (config_keithley kw o w).1 in
  voltages_set (ctl w') = voltages_set (ctl w) /\
  times (ctl w') = times (ctl w) /\
  voltages (ctl w') = voltages (ctl w) /\
  currents (ctl w') = currents (ctl w) /\
  currents_std (ctl w') = currents_std (ctl w) /\
  resistances (ctl w') = resistances (ctl w) /\
  powers (ctl w') = powers (ctl w).
Proof.
  rewrite config_keithley_eq. cbn.
  destruct (is_dummy (ctl w)); [|destruct o]; cbn; repeat split; reflexivity.
Qed.

(** C3, as stated, fails: after one measured point of a real sweep the
    current array holds -1, and a call of configure leaves it there. *)
Lemma configure_keeps_stale_samples :
  exists k w w',
    __init__ "GPIB::24" 1 5 1 F64.zero F64.zero F64.zero (F64.of_Z 1) F64.zero = Ok k /\
    run [Start; Thread 0 tick; Thread 0 tick; Thread 0 tick; Thread 0 tick;
         Thread 0 (meas unit_reading); StartReturns] (boot k) = Some w /\
    step (Config no_kwargs Connected) w = Some w' /\
    currents (ctl w') = [F64.of_Z (-1)] /\
    ~ all_zero (ctl w').
Proof.
  eexists. eexists. eexists.
  split; [reflexivity|]. split; [vm_compute; reflexivity|].
  split; [vm_compute; reflexivity|]. split; [reflexivity|].
  unfold all_zero. intros H.
  apply Forall_cons in H as [_ H]. apply Forall_cons in H as [_ H].
  apply Forall_cons in H as [H _]. cbn in H.
  apply Forall_cons in H as [H _]. discriminate.
Qed.

(** C3, amended: the constructor computes the voltage sequence with
    [np.linspace] and zeroes the six sample arrays at its length; a call of
    configure, for any keyword arguments and any outcome of the open,
    leaves the voltage sequence and all six sample arrays as they are. *)
Theorem configure_leaves_plan_and_samples (port : string) (n av reps : Z)
    (rd d vmin vmax cc : float) (k : Keithley) :
  __init__ port n av reps rd d vmin vmax cc = Ok k ->
  (np.linspace vmin vmax n = Ok (voltages_set k) /\ all_zero k /\ shaped k) /\
  forall (kw : kwargs) (o : open_outcome) (w : World),
    let w' := (config_keithley kw o w).1 in
    voltages_set (ctl w') = voltages_set (ctl w) /\
    times (ctl w') = times (ctl w) /\
    voltages (ctl w') = voltages (ctl w) /\
    currents (ctl w') = currents (ctl w) /\
    currents_std (ctl w') = currents_std (ctl w) /\
    resistances (ctl w') = resistances (ctl w) /\
    powers (ctl w') = powers (ctl w).
Proof.
  intros Hinit. split.
  - destruct (init_fields _ _ _ _ _ _ _ _ _ _ Hinit) as (Hl & _).
    split; [exact Hl|]. split; [exact (init_all_zero _ _ _ _ _ _ _ _ _ _ Hinit)|].
    exact (init_shaped _ _ _ _ _ _ _ _ _ _ Hinit).
  - intros kw o w. apply config_keithley_frame.
Qed.

Lemma configure_leaves_plan_and_samples_witness :
  exists k,
    __init__ "dummy" 5 5 2 F64.zero F64.zero F64.zero (F64.of_Z 1) F64.zero = Ok k /\
    all_zero k /\
    currents (ctl (config_keithley no_kwargs Connected (boot k)).1) = currents k.
Proof.
  eexists. split; [reflexivity|].
  destruct (configure_leaves_plan_and_samples "dummy" 5 5 2 F64.zero F64.zero F64.zero
              (F64.of_Z 1) F64.zero _ eq_refl) as ((_ & Hz & _) & Hf).
  split; [exact Hz|].
  exact (proj1 (proj2 (proj2 (proj2 (Hf no_kwargs Connected _))))).
Defined.



(** *** One measured point *)

(** A step of the thread at the top of a per-point iteration with points
    left, in a sound world. *)
Lemma point_step (w w' : World) (rep dp : nat) (i : input) :
  sound w -> threads w !! 0 = Some (Running (AtPoint rep dp)) ->
  dp < Z.to_nat (n_data_points (ctl w)) ->
  step (Thread 0 i) w = Some w' ->
  exists v0, voltages_set (ctl w) !! dp = Some v0 /\
    w' = match env_meas i with
         | Some rd =>
             set_threads [Running (AtPoint rep (dp + 1))]
               (emit_signal (update dp) (upd (recorded rd dp) (measured v0 w)))
         | None => set_threads [Died InstrumentError] (measured v0 w)
         end.
Proof.
  intros (Hsh & Hbk & _) Ht Hdp Hstep.
  destruct (bookkeeping_thread _ _ _ Hbk Ht) as (_ & Et & _ & Hok).
  cbn in Hok. destruct Hok as [s Hs].
  destruct (point_body_spec (env_meas i) dp w s Hsh Hdp Hs) as (v0 & Hv0 & Hpb).
  exists v0. split; [exact Hv0|].
  unfold step in Hstep. rewrite Ht in Hstep. unfold thread_step in Hstep.
  apply Nat.ltb_lt in Hdp. rewrite Hdp, Hpb in Hstep.
  destruct (env_meas i); cbn in Hstep; rewrite Et in Hstep; cbn in Hstep;
    injection Hstep as <-; reflexivity.
Qed.

Lemma reach_sound (port : string) (n av reps : Z) (rd d vmin vmax cc : float)
    (k : Keithley) (acts : list action) (w : World) :
  __init__ port n av reps rd d vmin vmax cc = Ok k ->
  run acts (boot k) = Some w -> sound w.
Proof.
  intros Hinit Hr. eapply run_sound; [|exact Hr].
  exact (init_sound _ _ _ _ _ _ _ _ _ _ Hinit).
Qed.

(** C10: in every world a constructed controller can reach, the voltage
    sequence and the six sample arrays have [n_data_points] entries, that
    number is the one given to the constructor, every index the thread has
    written (and signalled) lies below it, and no thread has died of an
    [IndexError]. *)
Theorem sample_arrays_keep_their_length (port : string) (n av reps : Z)
    (rd d vmin vmax cc : float) (k : Keithley) (acts : list action) (w : World) :
  __init__ port n av reps rd d vmin vmax cc = Ok k ->
  run acts (boot k) = Some w ->
  n_data_points (ctl w) = n /\
  length (times (ctl w)) = Z.to_nat n /\
  length (voltages (ctl w)) = Z.to_nat n /\
  length (currents (ctl w)) = Z.to_nat n /\
  length (currents_std (ctl w)) = Z.to_nat n /\
  length (resistances (ctl w)) = Z.to_nat n /\
  length (powers (ctl w)) = Z.to_nat n /\
  Forall (fun dp => dp < Z.to_nat n) (updates (signals w)) /\
  Forall (fun t => t <> Died IndexError) (threads w).
Proof.
  intros Hinit Hr.
  destruct (reach_sound _ _ _ _ _ _ _ _ _ _ _ _ Hinit Hr) as (Hsh & Hbk & Hup & _).
  destruct (run_plan _ _ _ Hr) as (Hn & _). cbn in Hn.
  destruct (init_fields _ _ _ _ _ _ _ _ _ _ Hinit) as (_ & _ & Hn0 & _).
  rewrite Hn0 in Hn. unfold shaped in Hsh. rewrite Hn in Hsh, Hup.
  destruct Hsh as (_ & H1 & H2 & H3 & H4 & H5 & H6).
  repeat (split; [assumption|]).
  unfold bookkeeping in Hbk.
  destruct (gpib_thread (ctl w)) as [[|?]|], (threads w) as [|t [|]];
    try contradiction; repeat constructor.
  destruct t; cbn in Hbk; congruence.
Qed.

Lemma sample_arrays_keep_their_length_witness :
  exists k w,
    __init__ "GPIB::24" 1 5 1 F64.zero F64.zero F64.zero (F64.of_Z 1) F64.zero = Ok k /\
    run [Start; Thread 0 tick; Thread 0 tick; Thread 0 tick; Thread 0 tick;
         Thread 0 (meas unit_reading)] (boot k) = Some w /\
    length (currents (ctl w)) = 1 /\ updates (signals w) = [0].
Proof.
  eexists. eexists. split; [reflexivity|]. split; [vm_compute; reflexivity|].
  split; [|reflexivity].
  match goal with
  | |- length (currents (ctl ?w)) = _ =>
      pose proof (sample_arrays_keep_their_length "GPIB::24" 1 5 1 F64.zero F64.zero
                    F64.zero (F64.of_Z 1) F64.zero _
                    [Start; Thread 0 tick; Thread 0 tick; Thread 0 tick; Thread 0 tick;
                     Thread 0 (meas unit_reading)] w eq_refl) as H
  end.
  exact (proj1 (proj2 (proj2 (proj2 (H ltac:(vm_compute; reflexivity)))))).
Defined.

(** What a completed per-point iteration stores and signals. *)
Lemma point_step_stores (port : string) (n av reps : Z)
    (rd d vmin vmax cc : float) (k : Keithley) (acts : list action)
    (w w' : World) (rep dp : nat) (i : input) (r : reading) :
  __init__ port n av reps rd d vmin vmax cc = Ok k ->
  run acts (boot k) = Some w ->
  threads w !! 0 = Some (Running (AtPoint rep dp)) ->
  dp < Z.to_nat n ->
  env_meas i = Some r ->
  step (Thread 0 i) w = Some w' ->
  w' = set_threads [Running (AtPoint rep (dp + 1))]
         (emit_signal (update dp)
            (upd (recorded r dp) (measured (default F64.zero (voltages_set (ctl w) !! dp)) w))) /\
  voltages (ctl w') !! dp = Some (mean_voltage r) /\
  currents (ctl w') !! dp = Some (F64.neg (mean_current r)) /\
  resistances (ctl w') !! dp =
    Some (F64.abs (F64.div (mean_voltage r) (F64.neg (mean_current r)))) /\
  powers (ctl w') !! dp =
    Some (F64.abs (F64.mul (mean_voltage r) (F64.neg (mean_current r)))) /\
  forall j, j ∈ updates (signals w') -> derived_at (ctl w') j.
Proof.
  intros Hinit Hr Ht Hdp Hm Hstep.
  pose proof (reach_sound _ _ _ _ _ _ _ _ _ _ _ _ Hinit Hr) as Hs.
  pose proof (sound_step _ _ _ Hs Hstep) as (_ & _ & _ & Hder).
  destruct (run_plan _ _ _ Hr) as (Hn & _). cbn in Hn.
  destruct (init_fields _ _ _ _ _ _ _ _ _ _ Hinit) as (_ & _ & Hn0 & _).
  rewrite Hn0 in Hn. rewrite <- Hn in Hdp.
  destruct (point_step _ _ _ _ _ Hs Ht Hdp Hstep) as (v0 & Hv0 & ->).
  rewrite Hm in *. rewrite Hv0. destruct Hs as ((_ & _ & Hv & Hc & _ & Hre & Hp) & _).
  cbn. rewrite !list_lookup_insert_eq by lia.
  repeat (split; [reflexivity|]). exact Hder.
Qed.

(** C8: when the thread completes a per-point iteration at index [dp] of a
    real sweep with the reading [r], the stored voltage is the instrument's
    mean voltage, the stored current is the negated mean current, the
    stored resistance and power are the absolute quotient and product of
    the two stored values; and at every index signalled so far resistance
    and power are derived from the stored voltage and current in this
    way. *)
Theorem recorded_samples_are_derived (port : string) (n av reps : Z)
    (rd d vmin vmax cc : float) (k : Keithley) (acts : list action)
    (w w' : World) (rep dp : nat) (i : input) (r : reading) :
  __init__ port n av reps rd d vmin vmax cc = Ok k ->
  run acts (boot k) = Some w ->
  threads w !! 0 = Some (Running (AtPoint rep dp)) ->
  dp < Z.to_nat n ->
  env_meas i = Some r ->
  step (Thread 0 i) w = Some w' ->
  voltages (ctl w') !! dp = Some (mean_voltage r) /\
  currents (ctl w') !! dp = Some (F64.neg (mean_current r)) /\
  resistances (ctl w') !! dp =
    Some (F64.abs (F64.div (mean_voltage r) (F64.neg (mean_current r)))) /\
  powers (ctl w') !! dp =
    Some (F64.abs (F64.mul (mean_voltage r) (F64.neg (mean_current r)))) /\
  updates (signals w') = updates (signals w) ++ [dp] /\
  forall j, j ∈ updates (signals w') -> derived_at (ctl w') j.
Proof.
  intros Hinit Hr Ht Hdp Hm Hstep.
  destruct (point_step_stores _ _ _ _ _ _ _ _ _ _ _ _ _ _ _ _ _
              Hinit Hr Ht Hdp Hm Hstep) as (Hw & Hv & Hc & Hre & Hp & Hder).
  repeat (split; [assumption|]). split; [|exact Hder].
  rewrite Hw. cbn. apply updates_snoc.
Qed.

Lemma recorded_samples_are_derived_witness :
  exists k w w',
    __init__ "GPIB::24" 1 5 1 F64.zero F64.zero F64.zero (F64.of_Z 1) F64.zero = Ok k /\
    run [Start; Thread 0 tick; Thread 0 tick; Thread 0 tick; Thread 0 tick] (boot k)
      = Some w /\
    step (Thread 0 (meas unit_reading)) w = Some w' /\
    currents (ctl w') !! 0 = Some (F64.of_Z (-1)) /\
    resistances (ctl w') !! 0 = Some (F64.of_Z 1).
Proof.
  eexists. eexists. eexists. split; [reflexivity|]. split; [vm_compute; reflexivity|].
  split; [vm_compute; reflexivity|].
  match goal with
  | |- currents (ctl ?w') !! 0 = _ /\ _ =>
      pose proof (fun w Hr Ht Hs =>
        recorded_samples_are_derived "GPIB::24" 1 5 1 F64.zero F64.zero F64.zero
          (F64.of_Z 1) F64.zero _
          [Start; Thread 0 tick; Thread 0 tick; Thread 0 tick; Thread 0 tick]
          w w' 0 0 (meas unit_reading) unit_reading eq_refl Hr Ht ltac:(cbn; lia)
          eq_refl Hs) as H
  end.
  edestruct H as (_ & Hc & Hres & _);
    [vm_compute; reflexivity | vm_compute; reflexivity | vm_compute; reflexivity |].
  split; [exact Hc | exact Hres].
Defined.

(** *** Division by a zero current *)

Lemma F64_div_zero_degenerate (v c : float) :
  F64.is_zero c = true ->
  F64.is_inf (F64.abs (F64.div v (F64.neg c))) || F64.is_nan (F64.abs (F64.div v (F64.neg c)))
    = true.
Proof. destruct v, c; try discriminate; reflexivity. Qed.

Lemma F64_mul_zero_degenerate (v c : float) :
  F64.is_zero c = true ->
  F64.is_zero (F64.abs (F64.mul v (F64.neg c))) || F64.is_nan (F64.abs (F64.mul v (F64.neg c)))
    = true.
Proof. destruct v, c; try discriminate; reflexivity. Qed.

(** C9: when the mean current read at index [dp] is a zero, the per-point
    iteration completes: nothing is raised, the thread goes on to the next
    index, the progress signal for [dp] is emitted, the stored resistance
    is an infinity or a NaN and the stored power a zero or a NaN. *)
Theorem zero_response_is_recorded (port : string) (n av reps : Z)
    (rd d vmin vmax cc : float) (k : Keithley) (acts : list action)
    (w w' : World) (rep dp : nat) (i : input) (r : reading) :
  __init__ port n av reps rd d vmin vmax cc = Ok k ->
  run acts (boot k) = Some w ->
  threads w !! 0 = Some (Running (AtPoint rep dp)) ->
  dp < Z.to_nat n ->
  env_meas i = Some r ->
  F64.is_zero (mean_current r) = true ->
  step (Thread 0 i) w = Some w' ->
  threads w' = [Running (AtPoint rep (dp + 1))] /\
  raised w' = raised w /\
  signals w' = signals w ++ [update dp] /\
  (exists x, resistances (ctl w') !! dp = Some x /\
             F64.is_inf x || F64.is_nan x = true) /\
  (exists y, powers (ctl w') !! dp = Some y /\
             F64.is_zero y || F64.is_nan y = true).
Proof.
  intros Hinit Hr Ht Hdp Hm Hz Hstep.
  destruct (point_step_stores _ _ _ _ _ _ _ _ _ _ _ _ _ _ _ _ _
              Hinit Hr Ht Hdp Hm Hstep) as (Hw & _ & _ & Hres & Hpow & _).
  split; [rewrite Hw; reflexivity|]. split; [rewrite Hw; reflexivity|].
  split; [rewrite Hw; reflexivity|].
  split; eexists; (split; [eassumption|]).
  - apply F64_div_zero_degenerate, Hz.
  - apply F64_mul_zero_degenerate, Hz.
Qed.

Lemma zero_response_is_recorded_witness :
  exists k w w',
    __init__ "GPIB::24" 2 5 1 F64.zero F64.zero F64.zero (F64.of_Z 1) F64.zero = Ok k /\
    run [Start; Thread 0 tick; Thread 0 tick; Thread 0 tick; Thread 0 tick] (boot k)
      = Some w /\
    step (Thread 0 (meas open_circuit)) w = Some w' /\
    threads w' = [Running (AtPoint 0 1)] /\
    resistances (ctl w') !! 0 = Some (S754_infinity false).
Proof.
  eexists. eexists. eexists. split; [reflexivity|]. split; [vm_compute; reflexivity|].
  split; [vm_compute; reflexivity|].
  match goal with
  | |- threads ?w' = _ /\ _ =>
      pose proof (fun w Hr Ht Hs =>
        zero_response_is_recorded "GPIB::24" 2 5 1 F64.zero F64.zero F64.zero
          (F64.of_Z 1) F64.zero _
          [Start; Thread 0 tick; Thread 0 tick; Thread 0 tick; Thread 0 tick]
          w w' 0 0 (meas open_circuit) open_circuit eq_refl Hr Ht ltac:(cbn; lia)
          eq_refl eq_refl Hs) as H
  end.
  edestruct H as (Ht & _);
    [vm_compute; reflexivity | vm_compute; reflexivity | vm_compute; reflexivity |].
  split; [exact Ht | reflexivity].
Defined.

(** *** Runs and their saves *)












(** *** Closing *)

#[global] Arguments shutdowns : simpl never.
#[global] Arguments disconnects : simpl never.

Lemma shutdowns_snoc (l : list instr_call) (c : instr_call) :
  shutdowns (l ++ [c]) = shutdowns l + (if is_shutdown c then 1 else 0).
Proof.
  unfold shutdowns. rewrite filter_app, length_app. f_equal.
  destruct c; reflexivity.
Qed.

Lemma disconnects_snoc_log (l : list signal) (m : string) :
  disconnects (l ++ [to_log m]) =
    disconnects l + (if decide (m = msg_disconnected) then 1 else 0).
Proof.
  unfold disconnects. rewrite logs_snoc, filter_app, length_app. f_equal.
  rewrite filter_cons, filter_nil. destruct (decide (m = msg_disconnected)); reflexivity.
Qed.

(** C2, as stated, fails: with a real instrument a second close after the
    run has ended shuts the instrument down a second time and logs the
    disconnect line a second time. *)
Lemma second_close_disconnects_again :
  exists k w,
    __init__ "GPIB::24" 1 5 1 F64.zero F64.zero F64.zero (F64.of_Z 1) F64.zero = Ok k /\
    run ([Start] ++ repeat (Thread 0 tick) 4 ++ [Thread 0 (meas unit_reading); StartReturns]
           ++ repeat (Thread 0 tick) 5
           ++ [Close; CloseReturns; Close; CloseReturns]) (boot k) = Some w /\
    threads w = [Finished] /\
    raised w = [] /\
    shutdowns (instrument w) = 2 /\
    disconnects (signals w) = 2.
Proof.
  eexists. eexists. split; [reflexivity|]. split; [vm_compute; reflexivity|].
  split; [reflexivity|]. split; [reflexivity|]. split; vm_compute; reflexivity.
Qed.

(** C2, amended: close returns only when the thread it joins has ended, so
    that no thread of the controller is running afterwards. In simulation
    mode a close, first or repeated, emits nothing and calls no instrument.
    With a real instrument every close that returns, first or repeated,
    shuts the instrument down once more and emits the disconnect line once
    more. *)
Theorem close_joins_and_disconnects_each_time (port : string) (n av reps : Z)
    (rd d vmin vmax cc : float) (k : Keithley) (acts : list action) (w w' : World) :
  __init__ port n av reps rd d vmin vmax cc = Ok k ->
  run acts (boot k) = Some w ->
  step CloseReturns w = Some w' ->
  Forall (fun t => terminated t = true) (threads w') /\
  (is_dummy (ctl w) = true ->
     signals w' = signals w /\ instrument w' = instrument w /\ raised w' = raised w) /\
  (is_dummy (ctl w) = false -> is_Some (sourcemeter (ctl w)) ->
     shutdowns (instrument w') = S (shutdowns (instrument w)) /\
     disconnects (signals w') = S (disconnects (signals w)) /\
     raised w' = raised w).
Proof.
  intros Hinit Hr Hstep.
  pose proof (reach_sound _ _ _ _ _ _ _ _ _ _ _ _ Hinit Hr) as (_ & Hbk & _).
  unfold step in Hstep. destruct (caller w); try discriminate.
  destruct (joined w) eqn:Ej; [|discriminate]. injection Hstep as <-.
  rewrite close_tail_eq. split; [|split].
  - assert (Ht : Forall (fun t => terminated t = true) (threads w)).
    { unfold joined, bookkeeping in *.
      destruct (gpib_thread (ctl w)) as [[|?]|], (threads w) as [|t [|]];
        try contradiction; repeat constructor. exact Ej. }
    destruct (is_dummy (ctl w)); [|destruct (sourcemeter (ctl w))]; exact Ht.
  - intros ->. cbn. auto.
  - intros -> [s ->]. cbn.
    rewrite shutdowns_snoc, disconnects_snoc_log. cbn.
    rewrite decide_True by reflexivity. repeat split; lia.
Qed.

Lemma close_joins_and_disconnects_each_time_witness :
  exists k w w',
    __init__ "GPIB::24" 1 5 1 F64.zero F64.zero F64.zero (F64.of_Z 1) F64.zero = Ok k /\
    run ([Start] ++ repeat (Thread 0 tick) 4 ++ [Thread 0 (meas unit_reading); StartReturns]
           ++ repeat (Thread 0 tick) 5 ++ [Close]) (boot k) = Some w /\
    step CloseReturns w = Some w' /\
    Forall (fun t => terminated t = true) (threads w').
Proof.
  eexists. eexists. eexists. split; [reflexivity|]. split; [vm_compute; reflexivity|].
  split; [vm_compute; reflexivity|].
  match goal with
  | |- Forall _ (threads ?w') =>
      pose proof (fun w Hr Hs =>
        proj1 (close_joins_and_disconnects_each_time "GPIB::24" 1 5 1 F64.zero F64.zero
                 F64.zero (F64.of_Z 1) F64.zero _
                 ([Start] ++ repeat (Thread 0 tick) 4
                    ++ [Thread 0 (meas unit_reading); StartReturns]
                    ++ repeat (Thread 0 tick) 5 ++ [Close]) w w' eq_refl Hr Hs)) as H
  end.
  eapply H; vm_compute; reflexivity.
Defined.

(** * Further properties of the code *)

(** ** The constructor *)

(** The constructor raises exactly for a negative number of points (the
    [ValueError] of [np.linspace]); any other arguments, a point count of
    zero and a repetition count of zero or less included, give a controller
    with zeroed arrays of the asked length, the run flag up, no thread and
    no instrument. *)
Theorem constructor_rejects_negative_counts_only (port : string) (n av reps : Z)
    (rd d vmin vmax cc : float) :
  if (n <? 0)%Z
  then __init__ port n av reps rd d vmin vmax cc = Raise ValueError
  else exists k,
      __init__ port n av reps rd d vmin vmax cc = Ok k /\
      gpib_port k = port /\ n_data_points k = n /\ repetitions k = reps /\
      shaped k /\ all_zero k /\
      is_run k = true /\ is_receiving k = false /\
      gpib_thread k = None /\ sourcemeter k = None.
Proof.
  destruct (n <? 0)%Z eqn:En.
  - unfold __init__, np.linspace. rewrite En. reflexivity.
  - destruct (__init__ port n av reps rd d vmin vmax cc) as [k|e] eqn:E.
    + exists k. split; [reflexivity|].
      pose proof (init_shaped _ _ _ _ _ _ _ _ _ _ E) as Hs.
      pose proof (init_all_zero _ _ _ _ _ _ _ _ _ _ E) as Hz.
      unfold __init__ in E. destruct (np.linspace vmin vmax n); [|discriminate].
      injection E as <-. cbn. auto 12.
    + unfold __init__, np.linspace in E. rewrite En in E. discriminate.
Qed.

(** ** Simulation mode *)



(** ** The order of progress signals *)

Lemma passes_snoc (m n : nat) : passes m n ++ seq 0 n = passes (S m) n.
Proof.
  unfold passes. induction m as [|m IH]; cbn.
  - rewrite app_nil_r. reflexivity.
  - rewrite <- app_assoc, IH. reflexivity.
Qed.

Lemma paced_step (a : action) (w w' : World) :
  paced w -> step a w = Some w' -> paced w'.
Proof.
  intros (Hs & Hp) Hstep.
  split; [exact (sound_step _ _ _ Hs Hstep)|].
  pose proof Hs as (_ & Hbk & _). pose proof Hstep as Hfold.
  unfold step in Hstep. destruct a.
  - destruct (caller w); try discriminate. injection Hstep as <-.
    unfold read_keithley_start, bookkeeping in *. cbn.
    destruct (gpib_thread (ctl w)) as [[|?]|], (threads w) as [|t [|]] eqn:Et;
      try contradiction; cbn; rewrite ?Et; try exact Hp.
    exists 0. exact Hp.
  - destruct (caller w); try discriminate.
    destruct (is_receiving (ctl w)); [|discriminate]. injection Hstep as <-. exact Hp.
  - destruct (caller w); try discriminate. injection Hstep as <-. exact Hp.
  - destruct (caller w); try discriminate.
    destruct (joined w); [|discriminate]. injection Hstep as <-.
    rewrite close_tail_eq.
    destruct (is_dummy (ctl w)); [|destruct (sourcemeter (ctl w))]; cbn;
      rewrite ?updates_snoc, ?app_nil_r; exact Hp.
  - destruct (caller w); try discriminate. injection Hstep as <-.
    rewrite config_keithley_eq. cbn.
    destruct (is_dummy (ctl w)); [|destruct o]; cbn;
      rewrite ?updates_snoc, ?app_nil_r; exact Hp.
  - destruct (threads w !! tid) as [[p| |]|] eqn:El; try discriminate.
    destruct (bookkeeping_thread _ _ _ Hbk El) as (-> & Et & Eg & Hok).
    rewrite Et in Hp.
    pose proof (thread_step_threads i p w) as [Ett _].
    destruct (thread_step i p w) as [w1 t] eqn:Ets. cbn in Ett. rewrite Ett, Et in Hstep.
    cbn in Hstep. injection Hstep as <-.
    destruct p; unfold thread_step in Ets.
    + cbn in Ets. injection Ets as <- <-. exact Hp.
    + rewrite config_keithley_eq in Ets. cbn in Ets.
      destruct (is_dummy (ctl w)); [|destruct (env_open i)]; injection Ets as <- <-; cbn;
        rewrite ?updates_snoc, ?app_nil_r; try exact Hp.
      destruct Hp as [m Hp]. exists m, 0. rewrite app_nil_r. split; [lia | exact Hp].
    + destruct (is_run (ctl w)); injection Ets as <- <-; exact Hp.
    + destruct (rep <? _); [destruct (is_dummy (ctl w))|]; injection Ets as <- <-; cbn;
        try exact Hp.
      split; [lia|]. destruct Hp as [m Hp]. exists m. rewrite app_nil_r. exact Hp.
    + destruct Hp as (Hle & m & Hu).
      destruct (Nat.ltb dp (Z.to_nat (n_data_points (ctl w)))) eqn:Edp.
      * apply Nat.ltb_lt in Edp.
        destruct (point_step _ _ _ _ _ Hs El Edp Hfold) as (v0 & _ & Hw).
        rewrite Hw. destruct (env_meas i); cbn.
        -- rewrite updates_snoc, Hu, <- app_assoc, seq_snoc.
           split; [lia|]. exists m. reflexivity.
        -- exists m, dp. split; [lia | exact Hu].
      * apply Nat.ltb_ge in Edp. assert (dp = Z.to_nat (n_data_points (ctl w))) as Hdp by lia.
        revert Ets. exec.
        destruct Hok as [s Hsm]. rewrite Hsm. cbn. intros [= <- <-]. cbn.
        exists (S m). rewrite Hu, Hdp. apply passes_snoc.
    + rewrite end_of_repetition_eq in Ets. cbn in Ets.
      destruct (_ <? _)%Z; injection Ets as <- <-; cbn;
        rewrite ?updates_snoc, ?app_nil_r; exact Hp.
    + cbn in Ets. injection Ets as <- <-. exact Hp.
Qed.

(** The progress signals come in passes: at any moment the indices
    signalled so far are some number of complete passes 0, 1, ..., n-1
    followed by an initial segment 0, ..., dp-1 of the next one, so within a
    repetition they are strictly increasing and none is skipped. *)
Theorem progress_signals_come_in_passes (port : string) (n av reps : Z)
    (rd d vmin vmax cc : float) (k : Keithley) (acts : list action) (w : World) :
  __init__ port n av reps rd d vmin vmax cc = Ok k ->
  run acts (boot k) = Some w ->
  exists m dp, dp <= Z.to_nat n /\
    updates (signals w) = passes m (Z.to_nat n) ++ seq 0 dp.
Proof.
  intros Hinit Hr.
  assert (H0 : paced (boot k)).
  { split; [exact (init_sound _ _ _ _ _ _ _ _ _ _ Hinit) | reflexivity]. }
  destruct (run_invariant paced paced_step acts _ _ H0 Hr) as (_ & Hp).
  destruct (run_plan _ _ _ Hr) as (Hn & _). cbn in Hn.
  destruct (init_fields _ _ _ _ _ _ _ _ _ _ Hinit) as (_ & _ & Hn0 & _).
  rewrite Hn0 in Hn. rewrite Hn in Hp.
  destruct (threads w) as [|t ts].
  - exists 0, 0. split; [lia | rewrite Hp; reflexivity].
  - unfold paced_thread in Hp. destruct t as [[]| |];
      try (destruct Hp as [m Hp]; exists m, 0; rewrite app_nil_r; split; [lia | exact Hp]).
    + destruct Hp as (Hle & m & Hp). exists m, dp. auto.
    + exact Hp.
Qed.

(** ** Shutting the instrument down *)

Lemma thread_step_shutdowns (i : input) (p : pc) (w : World) :
  shutdowns (instrument (thread_step i p w).1) = shutdowns (instrument w).
Proof.
  destruct p; unfold thread_step.
  - reflexivity.
  - rewrite config_keithley_eq. cbn.
    destruct (is_dummy (ctl w)); [|destruct (env_open i)]; cbn;
      rewrite ?shutdowns_snoc; cbn; lia.
  - destruct (is_run (ctl w)); reflexivity.
  - destruct (rep <? _); [destruct (is_dummy (ctl w))|]; reflexivity.
  - destruct (dp <? _).
    + exec. repeat (case_match; cbn in *; simplify_eq); cbn;
        rewrite ?shutdowns_snoc; cbn; lia.
    + exec. destruct (sourcemeter (ctl w)); cbn; rewrite ?shutdowns_snoc; cbn; lia.
  - rewrite end_of_repetition_eq. cbn. destruct (_ <? _)%Z; reflexivity.
  - reflexivity.
Qed.

Lemma step_shutdowns (a : action) (w w' : World) :
  step a w = Some w' ->
  shutdowns (instrument w') <= shutdowns (instrument w) + close_returns [a].
Proof.
  intros Hstep. unfold step in Hstep. destruct a; cbn [close_returns].
  - destruct (caller w); try discriminate. injection Hstep as <-.
    unfold read_keithley_start. cbn. destruct (gpib_thread (ctl w)); cbn; lia.
  - destruct (caller w); try discriminate.
    destruct (is_receiving (ctl w)); [|discriminate]. injection Hstep as <-. cbn. lia.
  - destruct (caller w); try discriminate. injection Hstep as <-. cbn. lia.
  - destruct (caller w); try discriminate.
    destruct (joined w); [|discriminate]. injection Hstep as <-.
    rewrite close_tail_eq.
    destruct (is_dummy (ctl w)); [|destruct (sourcemeter (ctl w))]; cbn;
      rewrite ?shutdowns_snoc; cbn; lia.
  - destruct (caller w); try discriminate. injection Hstep as <-.
    rewrite config_keithley_eq. cbn.
    destruct (is_dummy (ctl w)); [|destruct o]; cbn; rewrite ?shutdowns_snoc; cbn; lia.
  - destruct (threads w !! tid) as [[p| |]|]; try discriminate.
    pose proof (thread_step_shutdowns i p w) as Hsd.
    destruct (thread_step i p w) as [w1 t]. injection Hstep as <-. cbn in *. lia.
Qed.

(** Only [close()] shuts the instrument down: the instrument has received
    at most one shutdown per completed call of close, and none from the
    background thread, whether its sweep completed or it died. *)
Theorem only_close_shuts_down (k : Keithley) (acts : list action) (w : World) :
  run acts (boot k) = Some w ->
  shutdowns (instrument w) <= close_returns acts.
Proof.
  assert (G : forall acts w0 w1, run acts w0 = Some w1 ->
            shutdowns (instrument w1) <= shutdowns (instrument w0) + close_returns acts).
  { clear. induction acts as [|a acts IH]; intros w0 w1 Hr; cbn [run] in Hr.
    - injection Hr as <-. cbn. lia.
    - destruct (step a w0) as [w2|] eqn:E; [|discriminate].
      pose proof (step_shutdowns _ _ _ E) as H1. specialize (IH _ _ Hr).
      cbn [close_returns] in *. destruct a; lia. }
  intros Hr. apply G in Hr. cbn in Hr. exact Hr.
Qed.


(** ** The rendezvous of [read_keithley_start] *)

Lemma waiting_step (a : action) (w w' : World) :
  waiting w -> step a w = Some w' -> waiting w'.
Proof.
  intros (Hs & HR & Hrc & Hsv & Hth & Hcl) Hstep.
  split; [exact (sound_step _ _ _ Hs Hstep)|].
  destruct Hs as (_ & Hbk & _).
  unfold step in Hstep. destruct a.
  - destruct (caller w) eqn:Ec; try discriminate. injection Hstep as <-.
    unfold read_keithley_start, bookkeeping in *. cbn.
    destruct (gpib_thread (ctl w)) as [[|?]|], (threads w) as [|t [|]] eqn:Et;
      try contradiction; cbn.
    + exfalso. assert (Free = InStart) by (apply Hcl; discriminate).
      discriminate.
    + repeat split; auto; repeat constructor.
  - destruct (caller w); try discriminate. rewrite Hrc in Hstep. discriminate.
  - destruct (caller w) eqn:Ec; try discriminate. injection Hstep as <-.
    cbn. repeat split; auto. intros Hne. specialize (Hcl Hne). discriminate.
  - destruct (caller w) eqn:Ec; try discriminate.
    destruct (joined w); [|discriminate]. injection Hstep as <-.
    rewrite close_tail_eq.
    destruct (is_dummy (ctl w)); [|destruct (sourcemeter (ctl w))]; cbn;
      rewrite ?saves_snoc, ?app_nil_r; repeat split; auto;
      intros Hne; specialize (Hcl Hne); discriminate.
  - destruct (caller w) eqn:Ec; try discriminate. injection Hstep as <-.
    rewrite config_keithley_eq. cbn.
    destruct (is_dummy (ctl w)); [|destruct o]; cbn;
      rewrite ?saves_snoc, ?app_nil_r; repeat split; auto;
      intros Hne; specialize (Hcl Hne); discriminate.
  - destruct (threads w !! tid) as [[p| |]|] eqn:El; try discriminate.
    destruct (bookkeeping_thread _ _ _ Hbk El) as (-> & Et & Eg & Hok).
    rewrite Et in Hth. apply Forall_cons in Hth as [Hp _].
    assert (Hc : caller w = InStart) by (apply Hcl; rewrite Et; discriminate).
    pose proof (thread_step_threads i p w) as [Ett Ecc].
    destruct (thread_step i p w) as [w1 t] eqn:Ets. cbn in Ett, Ecc.
    rewrite Ett, Et in Hstep. cbn in Hstep. injection Hstep as <-.
    destruct p; unfold thread_step in Ets; try contradiction.
    + cbn in Ets. injection Ets as <- <-. cbn. repeat split; auto; repeat constructor.
    + rewrite config_keithley_eq in Ets. cbn in Ets.
      destruct (is_dummy (ctl w)); [|destruct (env_open i)]; injection Ets as <- <-; cbn;
        rewrite ?saves_snoc, ?app_nil_r; repeat split; auto; repeat constructor.
    + destruct (is_run (ctl w)); injection Ets as <- <-; cbn;
        repeat split; auto; repeat constructor.
    + replace (rep <? Z.to_nat (repetitions (ctl w))) with false in Ets
        by (symmetry; apply Nat.ltb_ge; lia).
      injection Ets as <- <-. cbn. repeat split; auto; repeat constructor.
    + cbn in Ets. injection Ets as <- <-. cbn. repeat split; auto; repeat constructor.
Qed.

(** With a repetition count of zero or less the thread never signals
    readiness: [is_receiving] stays down and no save is emitted, so the
    wait loop of [read_keithley_start] can never end, and once start has
    been called the caller is in that loop for good. *)
Theorem start_never_returns_without_repetitions (port : string) (n av reps : Z)
    (rd d vmin vmax cc : float) (k : Keithley) (acts : list action) (w : World) :
  __init__ port n av reps rd d vmin vmax cc = Ok k ->
  (reps <= 0)%Z ->
  run acts (boot k) = Some w ->
  is_receiving (ctl w) = false /\
  step StartReturns w = None /\
  saves (signals w) = [] /\
  (threads w <> [] -> caller w = InStart).
Proof.
  intros Hinit Hreps Hr.
  assert (H0 : waiting (boot k)).
  { split; [exact (init_sound _ _ _ _ _ _ _ _ _ _ Hinit)|].
    unfold __init__ in Hinit. destruct (np.linspace vmin vmax n); [|discriminate].
    injection Hinit as <-. cbn. repeat split; auto; [lia | congruence]. }
  destruct (run_invariant waiting waiting_step acts _ _ H0 Hr)
    as (_ & _ & Hrc & Hsv & _ & Hcl).
  repeat split; auto.
  unfold step. rewrite Hrc. destruct (caller w); reflexivity.
Qed.

Lemma ready_inv_step (a : action) (w w' : World) :
  sound w /\ ready_inv w -> step a w = Some w' -> sound w' /\ ready_inv w'.
Proof.
  intros [Hs Hri] Hstep. split; [exact (sound_step _ _ _ Hs Hstep)|].
  pose proof Hstep as Hfold. pose proof Hs as (_ & Hbk & _).
  unfold ready_inv in *. unfold step in Hstep. destruct a.
  - destruct (caller w); try discriminate. injection Hstep as <-.
    unfold read_keithley_start. cbn. destruct (gpib_thread (ctl w)); cbn; discriminate.
  - destruct (caller w); try discriminate.
    destruct (is_receiving (ctl w)); [|discriminate]. injection Hstep as <-.
    intros _. apply Hri. reflexivity.
  - destruct (caller w); try discriminate. injection Hstep as <-. exact Hri.
  - destruct (caller w); try discriminate.
    destruct (joined w); [|discriminate]. injection Hstep as <-.
    rewrite close_tail_eq.
    destruct (is_dummy (ctl w)) eqn:Ed; [|destruct (sourcemeter (ctl w))]; cbn;
      rewrite ?updates_snoc, ?app_nil_r, ?Ed; exact Hri.
  - destruct (caller w); try discriminate. injection Hstep as <-.
    rewrite config_keithley_eq. cbn.
    destruct (is_dummy (ctl w)) eqn:Ed; [|destruct o]; cbn;
      rewrite ?updates_snoc, ?app_nil_r; unfold is_dummy in *; cbn;
      intros Hrc; specialize (Hri Hrc); intuition congruence.
  - destruct (threads w !! tid) as [[p| |]|] eqn:El; try discriminate.
    destruct (bookkeeping_thread _ _ _ Hbk El) as (-> & Et & Eg & Hok).
    pose proof (thread_step_threads i p w) as [Ett _].
    destruct (thread_step i p w) as [w1 t] eqn:Ets. cbn in Ett.
    rewrite Ett, Et in Hstep. cbn in Hstep. injection Hstep as <-.
    destruct p; unfold thread_step in Ets.
    + cbn in Ets. injection Ets as <- <-. exact Hri.
    + rewrite config_keithley_eq in Ets. cbn in Ets.
      destruct (is_dummy (ctl w)) eqn:Ed; [|destruct (env_open i)];
        injection Ets as <- <-; cbn;
        rewrite ?updates_snoc, ?app_nil_r; unfold is_dummy in *; cbn;
        intros Hrc; specialize (Hri Hrc); intuition congruence.
    + destruct (is_run (ctl w)); injection Ets as <- <-; exact Hri.
    + destruct (rep <? _); [destruct (is_dummy (ctl w)) eqn:Ed|];
        injection Ets as <- <-; cbn; unfold is_dummy in *; cbn; auto.
      intros Hrc. specialize (Hri Hrc). intuition congruence.
    + destruct (Nat.ltb dp (Z.to_nat (n_data_points (ctl w)))) eqn:Edp.
      * apply Nat.ltb_lt in Edp.
        destruct (point_step _ _ _ _ _ Hs El Edp Hfold) as (v0 & _ & Hw).
        rewrite Hw. destruct (env_meas i); cbn; [|exact Hri].
        intros _. right. rewrite updates_snoc. intros Hnil.
        apply app_eq_nil in Hnil as [_ Hnil]. discriminate.
      * revert Ets. exec. destruct (sourcemeter (ctl w)); cbn; intros [= <- <-]; exact Hri.
    + rewrite end_of_repetition_eq in Ets. cbn in Ets.
      destruct (_ <? _)%Z; injection Ets as <- <-; cbn;
        rewrite ?updates_snoc, ?app_nil_r; exact Hri.
    + cbn in Ets. injection Ets as <- <-. exact Hri.
Qed.

(** [read_keithley_start] returns only on data or simulation: whenever the
    readiness flag is up, either the controller is in simulation mode or at
    least one point has been measured and signalled. *)
Theorem readiness_means_data_or_simulation (port : string) (n av reps : Z)
    (rd d vmin vmax cc : float) (k : Keithley) (acts : list action) (w w' : World) :
  __init__ port n av reps rd d vmin vmax cc = Ok k ->
  run acts (boot k) = Some w ->
  step StartReturns w = Some w' ->
  caller w' = Free /\
  (is_dummy (ctl w') = true \/ exists dp rest, updates (signals w') = dp :: rest).
Proof.
  intros Hinit Hr Hstep.
  assert (H0 : sound (boot k) /\ ready_inv (boot k)).
  { split; [exact (init_sound _ _ _ _ _ _ _ _ _ _ Hinit)|].
    unfold ready_inv. unfold __init__ in Hinit.
    destruct (np.linspace vmin vmax n); [|discriminate].
    injection Hinit as <-. cbn. discriminate. }
  destruct (run_invariant _ ready_inv_step acts _ _ H0 Hr) as [_ Hri].
  unfold step in Hstep. destruct (caller w); try discriminate.
  destruct (is_receiving (ctl w)) eqn:Erc; [|discriminate]. injection Hstep as <-.
  split; [reflexivity|]. cbn. destruct (Hri Erc) as [Hd|Hu]; [left; exact Hd|].
  right. destruct (updates (signals w)) as [|dp rest]; [contradiction|eauto].
Qed.

(** ** After the thread has ended *)

Lemma ended_step (a : action) (w w' : World) (t : tstate) :
  sound w -> threads w = [t] -> terminated t = true -> step a w = Some w' ->
  threads w' = [t] /\ saves (signals w') = saves (signals w) /\
  updates (signals w') = updates (signals w) /\
  times (ctl w') = times (ctl w) /\ voltages (ctl w') = voltages (ctl w) /\
  currents (ctl w') = currents (ctl w) /\ currents_std (ctl w') = currents_std (ctl w) /\
  resistances (ctl w') = resistances (ctl w) /\ powers (ctl w') = powers (ctl w).
Proof.
  intros (_ & Hbk & _) Ht Hterm Hstep.
  assert (Eg : exists tid, gpib_thread (ctl w) = Some tid).
  { unfold bookkeeping in Hbk. rewrite Ht in Hbk.
    destruct (gpib_thread (ctl w)); [eauto | contradiction]. }
  destruct Eg as [tid0 Eg].
  unfold step in Hstep. destruct a.
  - destruct (caller w); try discriminate. injection Hstep as <-.
    unfold read_keithley_start. cbn. rewrite Eg. cbn. auto 10.
  - destruct (caller w); try discriminate.
    destruct (is_receiving (ctl w)); [|discriminate]. injection Hstep as <-. cbn. auto 10.
  - destruct (caller w); try discriminate. injection Hstep as <-. cbn. auto 10.
  - destruct (caller w); try discriminate.
    destruct (joined w); [|discriminate]. injection Hstep as <-.
    rewrite close_tail_eq.
    destruct (is_dummy (ctl w)); [|destruct (sourcemeter (ctl w))]; cbn;
      rewrite ?saves_snoc, ?updates_snoc, ?app_nil_r; auto 10.
  - destruct (caller w); try discriminate. injection Hstep as <-.
    rewrite config_keithley_eq. cbn.
    destruct (is_dummy (ctl w)); [|destruct o]; cbn;
      rewrite ?saves_snoc, ?updates_snoc, ?app_nil_r; auto 10.
  - rewrite Ht in Hstep. destruct tid as [|tid]; cbn in Hstep; [|discriminate].
    destruct t; [discriminate Hterm | discriminate | discriminate].
Qed.

(** Once the thread has ended (finished or died) the controller cannot be
    run again: whatever is called afterwards, a second start included, no
    thread is created, no save or progress signal is emitted and the six
    sample arrays keep their contents. *)
Theorem ended_controller_stays_ended (port : string) (n av reps : Z)
    (rd d vmin vmax cc : float) (k : Keithley) (acts more : list action)
    (w w' : World) (t : tstate) :
  __init__ port n av reps rd d vmin vmax cc = Ok k ->
  run acts (boot k) = Some w ->
  threads w = [t] -> terminated t = true ->
  run more w = Some w' ->
  threads w' = [t] /\ saves (signals w') = saves (signals w) /\
  updates (signals w') = updates (signals w) /\
  get_keithley_data (ctl w') = get_keithley_data (ctl w).
Proof.
  intros Hinit Hr Ht Hterm Hmore.
  pose proof (reach_sound _ _ _ _ _ _ _ _ _ _ _ _ Hinit Hr) as Hs.
  clear Hinit Hr. revert w Hs Ht Hmore.
  induction more as [|a more IH]; intros w Hs Ht Hmore; cbn [run] in Hmore.
  - injection Hmore as <-. auto.
  - destruct (step a w) as [w1|] eqn:E; [|discriminate].
    destruct (ended_step _ _ _ _ Hs Ht Hterm E)
      as (Ht1 & Hsv & Hup & H1 & H2 & H3 & H4 & H5 & H6).
    destruct (IH w1 (sound_step _ _ _ Hs E) Ht1 Hmore) as (G1 & G2 & G3 & G4).
    split; [exact G1|]. split; [congruence|]. split; [congruence|].
    rewrite G4. unfold get_keithley_data. rewrite H1, H2, H3, H4, H5, H6. reflexivity.
Qed.

(** ** Closing a controller that never connected *)

(** A controller constructed on a real port and closed before anything
    connected it has no instrument object: close() ends in an
    [AttributeError], with the run flag lowered, nothing logged and no
    instrument call made. *)
Theorem close_before_connecting_raises (port : string) (n av reps : Z)
    (rd d vmin vmax cc : float) (k : Keithley) :
  __init__ port n av reps rd d vmin vmax cc = Ok k ->
  String.eqb port "dummy" = false ->
  exists w,
    run [Close; CloseReturns] (boot k) = Some w /\
    raised w = [AttributeError] /\ signals w = [] /\ instrument w = [] /\
    is_run (ctl w) = false /\ caller w = Free.
Proof.
  intros Hinit Hp. unfold __init__ in Hinit.
  destruct (np.linspace vmin vmax n); [|discriminate]. injection Hinit as <-.
  eexists. split.
  - cbn [run step boot caller close_request set_caller]. unfold joined. cbn.
    rewrite Hp. reflexivity.
  - cbn. auto.
Qed.

(** ** The data frame and the plot *)

(** [get_keithley_data] always has its six named columns, each with
    [n_data_points] rows, so the data frame can always be built. *)
Theorem data_frame_is_rectangular (port : string) (n av reps : Z)
    (rd d vmin vmax cc : float) (k : Keithley) (acts : list action) (w : World) :
  __init__ port n av reps rd d vmin vmax cc = Ok k ->
  run acts (boot k) = Some w ->
  map fst (get_keithley_data (ctl w)) =
    ["Time (s)"; "Voltage (V)"; "Current (A)"; "Current Std (A)"; "Resistance (Ohm)";
     "Power (W)"] /\
  Forall (fun c => length c.2 = Z.to_nat n) (get_keithley_data (ctl w)).
Proof.
  intros Hinit Hr.
  destruct (reach_sound _ _ _ _ _ _ _ _ _ _ _ _ Hinit Hr) as (Hsh & _).
  destruct (run_plan _ _ _ Hr) as (Hn & _). cbn in Hn.
  destruct (init_fields _ _ _ _ _ _ _ _ _ _ Hinit) as (_ & _ & Hn0 & _).
  rewrite Hn0 in Hn. unfold shaped in Hsh. rewrite Hn in Hsh.
  destruct Hsh as (_ & H1 & H2 & H3 & H4 & H5 & H6).
  split; [reflexivity|]. unfold get_keithley_data. repeat constructor; assumption.
Qed.

(** [plot] always draws as many ordinates as abscissae: the voltage
    sequence against a list of zeros of the same length in simulation
    mode, against the current array otherwise. *)
Theorem plot_data_is_aligned (port : string) (n av reps : Z)
    (rd d vmin vmax cc : float) (k : Keithley) (acts : list action) (w : World) :
  __init__ port n av reps rd d vmin vmax cc = Ok k ->
  run acts (boot k) = Some w ->
  (plot_data (ctl w)).1 = voltages_set k /\
  length (plot_data (ctl w)).1 = series_length (plot_data (ctl w)).2 /\
  (plot_data (ctl w)).2 =
    (if is_dummy (ctl w) then IntList (replicate (Z.to_nat n) 0%Z)
     else FloatArray (currents (ctl w))).
Proof.
  intros Hinit Hr.
  destruct (reach_sound _ _ _ _ _ _ _ _ _ _ _ _ Hinit Hr) as (Hsh & _).
  destruct (run_plan _ _ _ Hr) as (Hn & _ & Hvs & _). cbn in Hn, Hvs.
  destruct (init_fields _ _ _ _ _ _ _ _ _ _ Hinit) as (_ & _ & Hn0 & _).
  rewrite Hn0 in Hn. unfold shaped in Hsh. rewrite Hn in Hsh.
  destruct Hsh as (H0 & _ & _ & H3 & _).
  unfold plot_data, is_dummy. rewrite Hn.
  destruct (String.eqb (gpib_port (ctl w)) "dummy"); cbn;
    rewrite ?length_replicate; repeat split; congruence.
Qed.

(** ** Configuration arguments *)

(** A compliance current passed to [config_keithley] reaches the instrument
    but is not kept, while an averaging count is kept: the next call
    without arguments, such as the one the background thread makes, sets
    the compliance current back to the constructor's value and keeps the
    caller's averaging count. *)
Theorem compliance_override_is_not_kept (kw : kwargs) (w : World) :
  is_dummy (ctl w) = false ->
  let w1 := (config_keithley kw Connected w).1 in
  let w2 := (config_keithley no_kwargs Connected w1).1 in
  let av := default (averages (ctl w)) (kw_averages kw) in
  compliance_current (ctl w1) = compliance_current (ctl w) /\
  averages (ctl w1) = av /\
  instrument w1 = instrument w ++
    [Reset; UseFrontTerminals;
     SetComplianceCurrent (default (compliance_current (ctl w)) (kw_compliance_current kw));
     MeasureCurrent; ConfigBuffer av; EnableSource] /\
  instrument w2 = instrument w1 ++
    [Reset; UseFrontTerminals; SetComplianceCurrent (compliance_current (ctl w));
     MeasureCurrent; ConfigBuffer av; EnableSource].
Proof.
  intros Hd. cbn zeta. rewrite !config_keithley_eq. cbn. rewrite Hd. cbn.
  unfold is_dummy in *. cbn. rewrite Hd. cbn.
  repeat split; rewrite <- ?app_assoc; reflexivity.
Qed.

(** ** Whole sweeps *)








(** ** A real sweep with a working instrument *)

Section RealSweep.

Variable env : nat -> nat -> reading.

(** *** The arrays after a pass *)

Lemma recorded_frame (r : reading) (dp : nat) (k : Keithley) :
  gpib_port (recorded r dp k) = gpib_port k /\
  n_data_points (recorded r dp k) = n_data_points k /\
  repetitions (recorded r dp k) = repetitions k /\
  is_run (recorded r dp k) = is_run k /\
  sourcemeter (recorded r dp k) = sourcemeter k /\
  gpib_thread (recorded r dp k) = gpib_thread k /\
  voltages_set (recorded r dp k) = voltages_set k.
Proof. repeat split; reflexivity. Qed.






(** *** The loops *)





End RealSweep.



(** ** A start that comes late *)


(** ** Instances of the further properties *)


Lemma progress_signals_come_in_passes_witness :
  exists k w,
    __init__ "GPIB::24" 2 5 1 F64.zero F64.zero F64.zero (F64.of_Z 1) F64.zero = Ok k /\
    run [Start; Thread 0 tick; Thread 0 tick; Thread 0 tick; Thread 0 tick;
         Thread 0 (meas unit_reading)] (boot k) = Some w /\
    exists m dp, dp <= 2 /\ updates (signals w) = passes m 2 ++ seq 0 dp.
Proof.
  eexists. eexists. split; [reflexivity|]. split; [vm_compute; reflexivity|].
  match goal with
  | |- exists m dp, _ /\ updates (signals ?w) = _ =>
      pose proof (progress_signals_come_in_passes "GPIB::24" 2 5 1 F64.zero F64.zero
                    F64.zero (F64.of_Z 1) F64.zero _
                    [Start; Thread 0 tick; Thread 0 tick; Thread 0 tick; Thread 0 tick;
                     Thread 0 (meas unit_reading)] w eq_refl) as H
  end.
  apply H. vm_compute. reflexivity.
Defined.

Lemma only_close_shuts_down_witness :
  exists k w,
    __init__ "GPIB::24" 1 5 1 F64.zero F64.zero F64.zero (F64.of_Z 1) F64.zero = Ok k /\
    run [Start; Thread 0 tick; Thread 0 tick; Thread 0 tick; Thread 0 tick;
         Thread 0 tick] (boot k) = Some w /\
    threads w = [Died InstrumentError] /\
    shutdowns (instrument w) <= 0.
Proof.
  eexists. eexists. split; [reflexivity|].
  match goal with
  | |- run ?acts (boot ?k) = Some _ /\ _ =>
      pose proof (fun w => only_close_shuts_down k acts w) as H
  end.
  split; [vm_compute; reflexivity|]. split; [reflexivity|].
  apply H. vm_compute. reflexivity.
Defined.


Lemma start_never_returns_without_repetitions_witness :
  exists k w,
    __init__ "dummy" 5 5 0 F64.zero F64.zero F64.zero (F64.of_Z 1) F64.zero = Ok k /\
    run ([Start] ++ repeat (Thread 0 tick) 6) (boot k) = Some w /\
    threads w = [Finished] /\
    is_receiving (ctl w) = false /\ step StartReturns w = None.
Proof.
  eexists. eexists. split; [reflexivity|]. split; [vm_compute; reflexivity|].
  split; [reflexivity|].
  match goal with
  | |- is_receiving (ctl ?w) = false /\ _ =>
      pose proof (start_never_returns_without_repetitions "dummy" 5 5 0 F64.zero F64.zero
                    F64.zero (F64.of_Z 1) F64.zero _
                    ([Start] ++ repeat (Thread 0 tick) 6) w eq_refl ltac:(lia)) as H
  end.
  destruct H as (H1 & H2 & _); [vm_compute; reflexivity|]. split; [exact H1 | exact H2].
Defined.

Lemma readiness_means_data_or_simulation_witness :
  exists k w w',
    __init__ "GPIB::24" 2 5 1 F64.zero F64.zero F64.zero (F64.of_Z 1) F64.zero = Ok k /\
    run [Start; Thread 0 tick; Thread 0 tick; Thread 0 tick; Thread 0 tick;
         Thread 0 (meas unit_reading)] (boot k) = Some w /\
    step StartReturns w = Some w' /\
    (is_dummy (ctl w') = true \/ exists dp rest, updates (signals w') = dp :: rest).
Proof.
  eexists. eexists. eexists. split; [reflexivity|]. split; [vm_compute; reflexivity|].
  split; [vm_compute; reflexivity|].
  match goal with
  | |- is_dummy (ctl ?w') = true \/ _ =>
      pose proof (fun w Hr Hs =>
        readiness_means_data_or_simulation "GPIB::24" 2 5 1 F64.zero F64.zero
          F64.zero (F64.of_Z 1) F64.zero _
          [Start; Thread 0 tick; Thread 0 tick; Thread 0 tick; Thread 0 tick;
           Thread 0 (meas unit_reading)] w w' eq_refl Hr Hs) as H
  end.
  edestruct H as (_ & Hd); [vm_compute; reflexivity | vm_compute; reflexivity |].
  exact Hd.
Defined.

Lemma ended_controller_stays_ended_witness :
  exists k w w',
    __init__ "dummy" 5 5 1 F64.zero F64.zero F64.zero (F64.of_Z 1) F64.zero = Ok k /\
    run ([Start] ++ repeat (Thread 0 tick) 8 ++ [StartReturns]) (boot k) = Some w /\
    run [Start; Close; CloseReturns; Start] w = Some w' /\
    threads w' = [Finished] /\ saves (signals w') = [0].
Proof.
  eexists. eexists. eexists. split; [reflexivity|]. split; [vm_compute; reflexivity|].
  split; [vm_compute; reflexivity|].
  match goal with
  | |- threads ?w' = _ /\ _ =>
      pose proof (fun w Hr Ht Hm =>
        ended_controller_stays_ended "dummy" 5 5 1 F64.zero F64.zero
          F64.zero (F64.of_Z 1) F64.zero _
          ([Start] ++ repeat (Thread 0 tick) 8 ++ [StartReturns])
          [Start; Close; CloseReturns; Start] w w' Finished eq_refl Hr Ht eq_refl Hm) as H
  end.
  edestruct H as (Ht & Hsv & _);
    [vm_compute; reflexivity | vm_compute; reflexivity | vm_compute; reflexivity |].
  split; [exact Ht | rewrite Hsv; reflexivity].
Defined.

Lemma close_before_connecting_raises_witness :
  exists k w,
    __init__ "GPIB::24" 100 5 1 F64.zero F64.zero F64.zero (F64.of_Z 1) F64.zero = Ok k /\
    run [Close; CloseReturns] (boot k) = Some w /\
    raised w = [AttributeError].
Proof.
  eexists.
  destruct (close_before_connecting_raises "GPIB::24" 100 5 1 F64.zero F64.zero F64.zero
              (F64.of_Z 1) F64.zero _ eq_refl eq_refl) as (w & Hr & Hra & _).
  exists w. split; [reflexivity|]. split; [exact Hr | exact Hra].
Defined.

Lemma data_frame_is_rectangular_witness :
  exists k w,
    __init__ "GPIB::24" 2 5 1 F64.zero F64.zero F64.zero (F64.of_Z 1) F64.zero = Ok k /\
    run [Start; Thread 0 tick; Thread 0 tick; Thread 0 tick; Thread 0 tick;
         Thread 0 (meas unit_reading)] (boot k) = Some w /\
    Forall (fun c => length c.2 = 2) (get_keithley_data (ctl w)).
Proof.
  eexists. eexists. split; [reflexivity|]. split; [vm_compute; reflexivity|].
  match goal with
  | |- Forall _ (get_keithley_data (ctl ?w)) =>
      pose proof (data_frame_is_rectangular "GPIB::24" 2 5 1 F64.zero F64.zero
                    F64.zero (F64.of_Z 1) F64.zero _
                    [Start; Thread 0 tick; Thread 0 tick; Thread 0 tick; Thread 0 tick;
                     Thread 0 (meas unit_reading)] w eq_refl) as H
  end.
  apply H. vm_compute. reflexivity.
Defined.

Lemma plot_data_is_aligned_witness :
  exists k w,
    __init__ "dummy" 5 5 1 F64.zero F64.zero F64.zero (F64.of_Z 1) F64.zero = Ok k /\
    run ([Start] ++ repeat (Thread 0 tick) 8) (boot k) = Some w /\
    (plot_data (ctl w)).2 = IntList [0; 0; 0; 0; 0]%Z /\
    length (plot_data (ctl w)).1 = 5.
Proof.
  eexists. eexists. split; [reflexivity|]. split; [vm_compute; reflexivity|].
  match goal with
  | |- (plot_data (ctl ?w)).2 = _ /\ _ =>
      pose proof (plot_data_is_aligned "dummy" 5 5 1 F64.zero F64.zero
                    F64.zero (F64.of_Z 1) F64.zero _
                    ([Start] ++ repeat (Thread 0 tick) 8) w eq_refl) as H
  end.
  destruct H as (_ & Hlen & Hy); [vm_compute; reflexivity|].
  split; [exact Hy | rewrite Hlen, Hy; reflexivity].
Defined.

Lemma compliance_override_is_not_kept_witness :
  exists k,
    __init__ "GPIB::24" 2 5 1 F64.zero F64.zero F64.zero (F64.of_Z 1) (F64.dyadic 1 (-1))
      = Ok k /\
    let kw := {| kw_compliance_current := Some (F64.of_Z 1); kw_averages := Some 9%Z;
                 kw_others := [] |} in
    let w1 := (config_keithley kw Connected (boot k)).1 in
    compliance_current (ctl w1) = F64.dyadic 1 (-1) /\ averages (ctl w1) = 9%Z.
Proof.
  eexists. split; [reflexivity|]. intros kw w1.
  match goal with
  | w1 := (config_keithley _ _ ?w).1 |- _ =>
      destruct (compliance_override_is_not_kept kw w eq_refl) as (Hc & Ha & _)
  end.
  split; [exact Hc | exact Ha].
Defined.



